(** * Chart Creator (src/components/Dashboard.tsx): data ingestion and
    template export, embedded as pure functions on the component state.

    Conventions of the embedding.
    - A JavaScript string is a [string]; each [ascii] stands for one code
      unit below 256 (so the white space of [trim] and of the regular
      expression class [\s] is TAB, LF, VT, FF, CR, SP and NBSP).
    - A JavaScript number is an IEEE 754 binary64 value, [spec_float] of
      the Standard Library with precision 53 and maximal exponent 1024.
    - [undefined] (a missing array element) is [None] in [option string].
    - React state is a record; every handler is a function on it. *)

From Stdlib Require Import ZArith Ascii String List Bool Lia DecimalString.
From Stdlib Require Import SpecFloat.
From stdpp Require Import base list.
Import ListNotations.

Local Open Scope list_scope.
Local Open Scope string_scope.

(** ** JavaScript strings *)

Module JsString.

(** White space and line terminators: the characters removed by
    [String.prototype.trim] and matched by [\s]. *)
Definition is_whitespace (c : ascii) : bool :=
  let n := N_of_ascii c in
  (N.eqb n 9 || N.eqb n 10 || N.eqb n 11 || N.eqb n 12 || N.eqb n 13
   || N.eqb n 32 || N.eqb n 160)%bool.

(** Truthiness of a string: every string but the empty one. *)
Definition truthy (s : string) : bool :=
  match s with
  | EmptyString => false
  | String _ _ => true
  end.

Fixpoint trimStart (s : string) : string :=
  match s with
  | EmptyString => EmptyString
  | String c s' => if is_whitespace c then trimStart s' else s
  end.

Fixpoint trimEnd (s : string) : string :=
  match s with
  | EmptyString => EmptyString
  | String c s' =>
      match trimEnd s' with
      | EmptyString => if is_whitespace c then EmptyString else String c EmptyString
      | String _ _ as t => String c t
      end
  end.

(** [s.trim()] *)
Definition trim (s : string) : string := trimEnd (trimStart s).

(** [s.split(sep)] for a one-character separator: never the empty array. *)
Fixpoint split (sep : ascii) (s : string) : list string :=
  match s with
  | EmptyString => [EmptyString]
  | String c s' =>
      if Ascii.eqb c sep then EmptyString :: split sep s'
      else
        match split sep s' with
        | f :: fs => String c f :: fs
        | [] => [String c EmptyString]
        end
  end.

(** [parts.join(sep)] *)
Fixpoint join (sep : string) (parts : list string) : string :=
  match parts with
  | [] => EmptyString
  | [p] => p
  | p :: rest => p ++ sep ++ join sep rest
  end.

(** [toLowerCase] on code units below 256: A-Z and the Latin-1 capitals
    (0xC0-0xDE but the multiplication sign 0xD7) move up by 32. *)
Definition lower_char (c : ascii) : ascii :=
  let n := N_of_ascii c in
  if ((N.leb 65 n && N.leb n 90)
      || (N.leb 192 n && N.leb n 222 && negb (N.eqb n 215)))%bool
  then ascii_of_N (n + 32) else c.

Fixpoint toLowerCase (s : string) : string :=
  match s with
  | EmptyString => EmptyString
  | String c s' => String (lower_char c) (toLowerCase s')
  end.

(** [s.replace(/\s+/g, '-')]: every maximal run of white space becomes one
    hyphen.  [in_run] tells that the previous character was white space, so
    that the current match of [\s+] is still being consumed. *)
Fixpoint replace_ws_from (in_run : bool) (s : string) : string :=
  match s with
  | EmptyString => EmptyString
  | String c s' =>
      if is_whitespace c then
        if in_run then replace_ws_from true s'
        else String "-" (replace_ws_from true s')
      else String c (replace_ws_from false s')
  end.

Definition replace_ws_runs (s : string) : string := replace_ws_from false s.

(** Does the character occur in the string? *)
Fixpoint contains (c : ascii) (s : string) : bool :=
  match s with
  | EmptyString => false
  | String d s' => (Ascii.eqb d c || contains c s')%bool
  end.

End JsString.

(** ** JavaScript numbers *)

Module JsNumber.
Import JsString.
Local Open Scope bool_scope.
Local Open Scope Z_scope.

Definition number : Type := spec_float.

Definition prec : Z := 53.
Definition emax : Z := 1024.

Definition NaN : number := S754_nan.

(** The global [isNaN] and [isFinite] on a value that is already a number. *)
Definition isNaN (x : number) : bool :=
  match x with
  | S754_nan => true
  | _ => false
  end.

Definition isFinite (x : number) : bool :=
  match x with
  | S754_nan | S754_infinity _ => false
  | S754_zero _ | S754_finite _ _ _ => true
  end.

Definition number_eqb (x y : number) : bool :=
  match x, y with
  | S754_zero s, S754_zero s' => Bool.eqb s s'
  | S754_infinity s, S754_infinity s' => Bool.eqb s s'
  | S754_nan, S754_nan => true
  | S754_finite s m e, S754_finite s' m' e' =>
      (Bool.eqb s s' && Pos.eqb m m' && Z.eqb e e')%bool
  | _, _ => false
  end.

(** The number nearest to the positive rational [n / d] (ties to even,
    overflow to infinity), with sign [s]. *)
Definition round_ratio (s : bool) (n d : Z) : number :=
  let '(q, e, l) := SFdiv_core_binary prec emax n 0 d 0 in
  binary_round_aux prec emax s q e l.

(** The number nearest to [m * 10 ^ e10], for a natural number [m]. *)
Definition decimal_value (s : bool) (m e10 : Z) : number :=
  if m =? 0 then S754_zero s
  else if 0 <=? e10 then round_ratio s (m * 10 ^ e10) 1
  else round_ratio s m (10 ^ (- e10)).

(** An integer literal of the source text, such as [1200]. *)
Definition num (z : Z) : number := decimal_value (z <? 0) (Z.abs z) 0.

(** The integer a number denotes, if it denotes one (both zeros denote 0). *)
Definition integer_value (x : number) : option Z :=
  match x with
  | S754_zero _ => Some 0
  | S754_finite s m e =>
      if 0 <=? e then Some (cond_Zopp s (Zpos m * 2 ^ e))
      else if Zpos m mod 2 ^ (- e) =? 0
           then Some (cond_Zopp s (Zpos m / 2 ^ (- e)))
           else None
  | S754_infinity _ | S754_nan => None
  end.

(** *** String to number: [Number(s)], StringToNumber of ECMA-262 *)

(** The value of a digit in the given radix, if it is one. *)
Definition radix_digit (radix : Z) (c : ascii) : option Z :=
  let n := Z.of_N (N_of_ascii c) in
  let v := if (48 <=? n) && (n <=? 57) then n - 48
           else if (97 <=? n) && (n <=? 102) then n - 87
           else if (65 <=? n) && (n <=? 70) then n - 55
           else radix in
  if v <? radix then Some v else None.

Definition is_digit (c : ascii) : bool :=
  match radix_digit 10 c with
  | Some _ => true
  | None => false
  end.

(** The longest prefix of decimal digits, and what follows it. *)
Fixpoint take_digits (s : string) : string * string :=
  match s with
  | EmptyString => (EmptyString, EmptyString)
  | String c s' =>
      if is_digit c then
        let '(ds, rest) := take_digits s' in (String c ds, rest)
      else (EmptyString, s)
  end.

(** The value of a string of digits in a radix; [None] at a character that
    is no digit of it. *)
Fixpoint radix_value (radix acc : Z) (s : string) : option Z :=
  match s with
  | EmptyString => Some acc
  | String c s' =>
      match radix_digit radix c with
      | Some v => radix_value radix (acc * radix + v) s'
      | None => None
      end
  end.

Definition digits_value (s : string) : Z :=
  match radix_value 10 0 s with
  | Some v => v
  | None => 0
  end.

(** NonDecimalIntegerLiteral after its prefix: at least one digit. *)
Definition parse_radix (radix : Z) (s : string) : option number :=
  if truthy s then
    match radix_value radix 0 s with
    | Some v => Some (decimal_value false v 0)
    | None => None
    end
  else None.

(** An optional ExponentPart that reaches the end of the string. *)
Definition parse_exponent (s : string) : option Z :=
  match s with
  | EmptyString => Some 0
  | String c r =>
      if Ascii.eqb c "e" || Ascii.eqb c "E" then
        let '(neg, r') :=
          match r with
          | String "+" r' => (false, r')
          | String "-" r' => (true, r')
          | _ => (false, r)
          end in
        let '(ds, rest) := take_digits r' in
        if truthy ds && negb (truthy rest)
        then Some (cond_Zopp neg (digits_value ds))
        else None
      else None
  end.

(** StrUnsignedDecimalLiteral, with the sign read before it. *)
Definition parse_unsigned_decimal (s : bool) (t : string) : option number :=
  if String.eqb t "Infinity" then Some (S754_infinity s)
  else
    let '(ip, r) := take_digits t in
    let '(fp, r2) :=
      match r with
      | String "." r' => take_digits r'
      | _ => (EmptyString, r)
      end in
    if truthy ip || truthy fp then
      match parse_exponent r2 with
      | Some e =>
          Some (decimal_value s (digits_value (ip ++ fp))
                  (e - Z.of_nat (String.length fp)))
      | None => None
      end
    else None.

(** StrNumericLiteral *)
Definition parse_numeric_literal (t : string) : option number :=
  match t with
  | String "0" (String "x" r) | String "0" (String "X" r) => parse_radix 16 r
  | String "0" (String "o" r) | String "0" (String "O" r) => parse_radix 8 r
  | String "0" (String "b" r) | String "0" (String "B" r) => parse_radix 2 r
  | String "+" r => parse_unsigned_decimal false r
  | String "-" r => parse_unsigned_decimal true r
  | _ => parse_unsigned_decimal false t
  end.

Definition StringToNumber (s : string) : number :=
  let t := trim s in
  if truthy t then
    match parse_numeric_literal t with
    | Some x => x
    | None => NaN
    end
  else S754_zero false.

(** [Number(v)] for [v] a string or [undefined]. *)
Definition Number (v : option string) : number :=
  match v with
  | Some s => StringToNumber s
  | None => NaN
  end.

(** *** Number to string: Number::toString of ECMA-262, radix 10 *)

Definition string_of_nat_Z (z : Z) : string :=
  NilZero.string_of_uint (N.to_uint (Z.to_N z)).

Fixpoint zeros (n : nat) : string :=
  match n with
  | O => EmptyString
  | S n' => String "0" (zeros n')
  end.

(** Is [a / b < 10 ^ n]? *)
Definition lt_pow10 (a b n : Z) : bool :=
  if 0 <=? n then a <? b * 10 ^ n else a * 10 ^ (- n) <? b.

(** The least [n] from [n] on with [a / b < 10 ^ n]. *)
Fixpoint decimal_exponent (fuel : nat) (a b n : Z) : Z :=
  match fuel with
  | O => n
  | S fuel' => if lt_pow10 a b n then n else decimal_exponent fuel' a b (n + 1)
  end.

(** With [k] digits: the two integers [s] around [a / b / 10 ^ (n - k)],
    the nearer one first (the even one on a tie). *)
Definition digit_candidates (a b n k : Z) : Z * Z :=
  let p := n - k in
  let yn := if 0 <=? p then a else a * 10 ^ (- p) in
  let yd := if 0 <=? p then b * 10 ^ p else b in
  let lo := yn / yd in
  let hi := lo + 1 in
  match (yn - lo * yd ?= hi * yd - yn) with
  | Lt => (lo, hi)
  | Gt => (hi, lo)
  | Eq => if Z.even lo then (lo, hi) else (hi, lo)
  end.

(** The shortest digit string [s] and the position [n] of the decimal point
    such that [s * 10 ^ (n - k)] reads back as [x], trying [k], [k + 1], ... *)
Fixpoint shortest_digits (fuel : nat) (x : number) (a b n k : Z) : Z * Z :=
  let '(c1, c2) := digit_candidates a b n k in
  let reads_back c := number_eqb (decimal_value false c (n - k)) x in
  if reads_back c1 then (c1, k)
  else if reads_back c2 then (c2, k)
  else
    match fuel with
    | O => (c1, k)
    | S fuel' => shortest_digits fuel' x a b n (k + 1)
    end.

Fixpoint strip_trailing_zeros (s : string) : string :=
  match s with
  | EmptyString => EmptyString
  | String c s' =>
      match strip_trailing_zeros s' with
      | EmptyString => if Ascii.eqb c "0" then EmptyString else String c EmptyString
      | String _ _ as t => String c t
      end
  end.

(** The digits [ds] with the decimal point after the first [n] of them. *)
Definition format_digits (ds : string) (n : Z) : string :=
  let k := Z.of_nat (String.length ds) in
  if (k <=? n) && (n <=? 21) then ds ++ zeros (Z.to_nat (n - k))
  else if (0 <? n) && (n <=? 21) then
    substring 0 (Z.to_nat n) ds ++ "." ++ substring (Z.to_nat n) (Z.to_nat (k - n)) ds
  else if (-6 <? n) && (n <=? 0) then "0." ++ zeros (Z.to_nat (- n)) ++ ds
  else
    let e := n - 1 in
    let es := (if e <? 0 then "-" else "+") ++ string_of_nat_Z (Z.abs e) in
    match ds with
    | EmptyString => EmptyString
    | String d EmptyString => String d ("e" ++ es)
    | String d rest => String d ("." ++ rest ++ "e" ++ es)
    end.

Definition toString (x : number) : string :=
  match x with
  | S754_nan => "NaN"
  | S754_zero _ => "0"
  | S754_infinity s => if s then "-Infinity" else "Infinity"
  | S754_finite s m e =>
      let a := if 0 <=? e then Zpos m * 2 ^ e else Zpos m in
      let b := if 0 <=? e then 1 else 2 ^ (- e) in
      let n0 := decimal_exponent 700 a b (-330) in
      let '(c, k) := shortest_digits 20 (S754_finite false m e) a b n0 1 in
      let ds := string_of_nat_Z c in
      let n := n0 + (Z.of_nat (String.length ds) - k) in
      (if s then "-" else "") ++ format_digits (strip_trailing_zeros ds) n
  end.

End JsNumber.

(** ** The component: types, the built-in templates and the state *)

Import JsString JsNumber.

Inductive ChartType : Type := line | bar | area | pie.

Module DataPoint.
Record t : Type := mk { name : string; value : number }.
End DataPoint.

Module Template.
Record t : Type := mk {
  name : string;
  description : string;
  format : string;
  example : list DataPoint.t
}.
End Template.

(** The three elements of the array [templates], named after their [name]. *)
Definition monthlySales : Template.t :=
  Template.mk "Monthly Sales"
    "Track monthly sales performance"
    "Month (string), Sales Amount (number)"
    [ DataPoint.mk "Jan" (num 1200);
      DataPoint.mk "Feb" (num 1900);
      DataPoint.mk "Mar" (num 1600);
      DataPoint.mk "Apr" (num 2100) ].

Definition productCategories : Template.t :=
  Template.mk "Product Categories"
    "Compare sales across product categories"
    "Category (string), Revenue (number)"
    [ DataPoint.mk "Electronics" (num 5400);
      DataPoint.mk "Clothing" (num 3200);
      DataPoint.mk "Books" (num 2100);
      DataPoint.mk "Home" (num 4300) ].

Definition weeklyTraffic : Template.t :=
  Template.mk "Weekly Traffic"
    "Website traffic by weekday"
    "Day (string), Visitors (number)"
    [ DataPoint.mk "Mon" (num 2500);
      DataPoint.mk "Tue" (num 3100);
      DataPoint.mk "Wed" (num 3800);
      DataPoint.mk "Thu" (num 3600);
      DataPoint.mk "Fri" (num 3200) ].

Definition templates : list Template.t :=
  [monthlySales; productCategories; weeklyTraffic].

(** The [useState] cells of [ChartCreator]. *)
Record State : Type := mkState {
  chartType : ChartType;
  data : list DataPoint.t;
  newName : string;
  newValue : string;
  selectedTemplate : option Template.t
}.

Definition initialState : State := mkState line [] "" "" None.

Definition setData (d : list DataPoint.t) (st : State) : State :=
  mkState (chartType st) d (newName st) (newValue st) (selectedTemplate st).

Definition setNewName (s : string) (st : State) : State :=
  mkState (chartType st) (data st) s (newValue st) (selectedTemplate st).

Definition setNewValue (s : string) (st : State) : State :=
  mkState (chartType st) (data st) (newName st) s (selectedTemplate st).

Definition setSelectedTemplate (t : option Template.t) (st : State) : State :=
  mkState (chartType st) (data st) (newName st) (newValue st) t.

(** ** The handlers *)

(** [addDataPoint]: both fields must be truthy, nothing else is checked. *)
Definition addDataPoint (st : State) : State :=
  if (truthy (newName st) && truthy (newValue st))%bool then
    setNewValue ""
      (setNewName ""
         (setData
            (data st ++ [DataPoint.mk (newName st) (Number (Some (newValue st)))])%list
            st))
  else st.

(** [i === index] for an array position [i]: positions are integers that a
    number holds exactly, so they are equal when [index] denotes [i]. *)
Definition strict_equals_index (i : nat) (index : number) : bool :=
  match integer_value index with
  | Some z => Z.eqb z (Z.of_nat i)
  | None => false
  end.

(** [l.filter((x, i) => keep x i)], the positions counted from [i]. *)
Fixpoint filter_from {A : Type} (keep : A -> nat -> bool) (i : nat) (l : list A)
  : list A :=
  match l with
  | [] => []
  | x :: l' =>
      if keep x i then x :: filter_from keep (S i) l'
      else filter_from keep (S i) l'
  end.

Definition filter_index {A : Type} (keep : A -> nat -> bool) (l : list A) : list A :=
  filter_from keep 0 l.

(** [removeDataPoint] *)
Definition removeDataPoint (index : number) (st : State) : State :=
  setData (filter_index (fun _ i => negb (strict_equals_index i index)) (data st)) st.

(** [loadTemplate] *)
Definition loadTemplate (template : Template.t) (st : State) : State :=
  setData (Template.example template) (setSelectedTemplate (Some template) st).

Definition LF : ascii := "010"%char.
Definition comma : ascii := ","%char.
Definition nl : string := String LF "".

(** The body of the loop over the lines of the file: [newData] after the
    line [raw].  A missing first element of the split line would leave
    [valueStr] undefined too, so that nothing is pushed. *)
Definition loop_body (newData : list DataPoint.t) (raw : string) : list DataPoint.t :=
  let line := trim raw in
  if truthy line then
    match map trim (split comma line) with
    | name :: rest =>
        let valueStr := head rest in
        let value := Number valueStr in
        if negb (isNaN value) then (newData ++ [DataPoint.mk name value])%list
        else newData
    | [] => newData
    end
  else newData.

(** [newData] at the end of the loop, which starts at the second line. *)
Definition parseCsv (content : string) : list DataPoint.t :=
  fold_left loop_body (drop 1 (split LF content)) [].

(** The [onload] callback of the reader, on the text of the file.  Nothing
    in its [try] block can throw on a string. *)
Definition onload (content : string) (st : State) : State :=
  setData (parseCsv content) st.

(** [handleFileUpload]: no file chosen, nothing happens; [file] is the text
    that [readAsText] delivers. *)
Definition handleFileUpload (file : option string) (st : State) : State :=
  match file with
  | Some content => onload content st
  | None => st
  end.

(** What [downloadTemplate] hands to the browser: the text of the blob and
    the file name of the link. *)
Record Download : Type := mkDownload { blob : string; download : string }.

Definition csvRow (point : DataPoint.t) : string :=
  DataPoint.name point ++ "," ++ toString (DataPoint.value point).

(** [downloadTemplate]; the state is left as it is. *)
Definition downloadTemplate (st : State) : option Download :=
  match selectedTemplate st with
  | None => None
  | Some t =>
      let header := "name,value" ++ nl in
      let content := join nl (map csvRow (Template.example t)) in
      Some (mkDownload (header ++ content)
              (replace_ws_runs (toLowerCase (Template.name t)) ++ "-template.csv"))
  end.

(** The click handler of the button "Template" of a card:
    [setSelectedTemplate(template); downloadTemplate()].  [downloadTemplate]
    is the function of the render that drew the button, so it reads the
    [selectedTemplate] of the state before the click; the new selection is
    in the state after it. *)
Definition templateButtonClick (template : Template.t) (st : State)
  : option Download * State :=
  (downloadTemplate st, setSelectedTemplate (Some template) st).

(** [data.length > 0 && ...]: the condition under which the data table, the
    export buttons and the chart are rendered. *)
Definition chartVisible (st : State) : bool := Nat.ltb 0 (length (data st)).

(** The cells of the pie in [renderChart]: one per data point, with key
    [cell-<index>] and the fill [palette[index % 3]] (a position is an
    integer, so the remainder is that of the natural numbers). *)
Definition palette : list string := ["#3b82f6"; "#10b981"; "#8b5cf6"].

Record Cell : Type := mkCell { key : string; fill : option string }.

Definition pieCells (d : list DataPoint.t) : list Cell :=
  imap (fun index _ =>
          mkCell ("cell-" ++ toString (num (Z.of_nat index)))
                 (palette !! (index mod 3)))
       d.

(** ** Notions used to state the properties *)

Definition newline_free (s : string) : Prop := contains LF s = false.
Definition comma_free (s : string) : Prop := contains comma s = false.

Fixpoint count_char (c : ascii) (s : string) : nat :=
  match s with
  | EmptyString => 0
  | String d s' => (if Ascii.eqb d c then 1 else 0) + count_char c s'
  end.

(** The text before the first line feed. *)
Fixpoint first_line (s : string) : string :=
  match s with
  | EmptyString => EmptyString
  | String c s' => if Ascii.eqb c LF then EmptyString else String c (first_line s')
  end.

Definition is_upper_ascii (c : ascii) : bool :=
  (N.leb 65 (N_of_ascii c) && N.leb (N_of_ascii c) 90)%bool.

Fixpoint string_forallb (p : ascii -> bool) (s : string) : bool :=
  match s with
  | EmptyString => true
  | String c s' => (p c && string_forallb p s')%bool
  end.

(** The Dataset invariant of the specification, and the weaker one. *)
Definition all_finite (d : list DataPoint.t) : Prop :=
  Forall (fun p => isFinite (DataPoint.value p) = true) d.

Definition no_NaN (d : list DataPoint.t) : Prop :=
  Forall (fun p => isNaN (DataPoint.value p) = false) d.

(** What one line of the file contributes to the Dataset. *)
Definition parseRow (raw : string) : list DataPoint.t := loop_body [] raw.

(** A row with label [label] and value text [valueText]: kept unless the
    text coerces to NaN. *)
Definition keptRow (label valueText : string) : list DataPoint.t :=
  if isNaN (Number (Some valueText)) then []
  else [DataPoint.mk label (Number (Some valueText))].

(** The lines of a file, put together again. *)
Definition fileOf (header : string) (rows : list string) : string :=
  join nl (header :: rows).

(** A data point that survives being written to a template file and read
    back: its label has no comma, no line feed and no outer white space, and
    its value is printed as text that reads back as the same number. *)
Definition clean_point (p : DataPoint.t) : bool :=
  let label := DataPoint.name p in
  let text := toString (DataPoint.value p) in
  (negb (contains comma label) && negb (contains LF label)
   && String.eqb (trim label) label
   && negb (contains comma text) && negb (contains LF text)
   && negb (isNaN (DataPoint.value p))
   && number_eqb (Number (Some (trim text))) (DataPoint.value p))%bool.

(** The rows of the example of the specification, to be put under a header. *)
Definition exampleRows : list string := ["Jan,1200"; "Feb,abc"; ",300"; "Mar,1600"].

(** The file name as the specification words it: the name lower-cased,
    each space replaced by a hyphen, then the suffix. *)
Fixpoint spec_hyphenate (s : string) : string :=
  match s with
  | EmptyString => EmptyString
  | String c s' =>
      String (if Ascii.eqb c " " then "-"%char else c) (spec_hyphenate s')
  end.

Definition spec_fileName (t : Template.t) : string :=
  spec_hyphenate (toLowerCase (Template.name t)) ++ "-template.csv".

(** The only white space of the string is single spaces: no other white
    space character and no two spaces in a row ([prev_ws]: the character
    before was one). *)
Fixpoint single_spaced (prev_ws : bool) (s : string) : bool :=
  match s with
  | EmptyString => true
  | String c s' =>
      if is_whitespace c
      then (Ascii.eqb c " " && negb prev_ws && single_spaced true s')%bool
      else single_spaced false s'
  end.

Definition CR : ascii := "013"%char.

(** The lines of a file with the line ends CR LF. *)
Definition fileOfCRLF (header : string) (rows : list string) : string :=
  join (String CR nl) (header :: rows).

(** The file that [downloadTemplate] makes of a template. *)
Definition templateFile (t : Template.t) : Download :=
  mkDownload ("name,value" ++ nl ++ join nl (map csvRow (Template.example t)))
             (replace_ws_runs (toLowerCase (Template.name t)) ++ "-template.csv").

(** The lines of a file with CR LF line ends, as the import sees them:
    each line but the last keeps its CR. *)
Fixpoint keep_CR (rows : list string) : list string :=
  match rows with
  | [] => []
  | [r] => [r]
  | r :: rest => (r ++ String CR "") :: keep_CR rest
  end.

(** The fill of the cell of slice [i], if there is such a cell. *)
Definition cellFill (d : list DataPoint.t) (i : nat) : option string :=
  match pieCells d !! i with
  | Some c => fill c
  | None => None
  end.

(** * Properties *)

(** ** Strings *)

Section StringFacts.

Lemma append_empty_r (s : string) : s ++ "" = s.
Proof. induction s as [|c s IH]; simpl; [reflexivity | now rewrite IH]. Qed.

Lemma append_assoc (a b c : string) : (a ++ b) ++ c = a ++ (b ++ c).
Proof. induction a as [|x a IH]; simpl; [reflexivity | now rewrite IH]. Qed.

Lemma truthy_append_String (a : string) (c : ascii) (r : string) :
  truthy (a ++ String c r) = true.
Proof. destruct a; reflexivity. Qed.

Lemma contains_append (c : ascii) (a b : string) :
  contains c (a ++ b) = (contains c a || contains c b)%bool.
Proof.
  induction a as [|x a IH]; simpl; [reflexivity|].
  rewrite IH. now rewrite orb_assoc.
Qed.

Lemma split_not_nil (sep : ascii) (s : string) : split sep s <> [].
Proof.
  induction s as [|c s IH]; simpl; [discriminate|].
  destruct (Ascii.eqb c sep); [discriminate|].
  destruct (split sep s); discriminate.
Qed.

Lemma split_free (sep : ascii) (s : string) :
  contains sep s = false -> split sep s = [s].
Proof.
  induction s as [|c s IH]; simpl; intros H; [reflexivity|].
  apply orb_false_iff in H as [Hc Hs].
  rewrite Hc, (IH Hs). reflexivity.
Qed.

Lemma split_append_sep (sep : ascii) (a r : string) :
  contains sep a = false ->
  split sep (a ++ String sep r) = a :: split sep r.
Proof.
  induction a as [|c a IH]; simpl; intros H.
  - now rewrite Ascii.eqb_refl.
  - apply orb_false_iff in H as [Hc Ha].
    rewrite Hc, (IH Ha). reflexivity.
Qed.

Lemma split_join (sep : ascii) (p : string) (ps : list string) :
  Forall (fun s => contains sep s = false) (p :: ps) ->
  split sep (join (String sep "") (p :: ps)) = p :: ps.
Proof.
  revert p. induction ps as [|q ps IH]; intros p H.
  - simpl. apply split_free. now inversion H.
  - inversion H as [|? ? Hp Hrest]; subst.
    change (join (String sep "") (p :: q :: ps))
      with (p ++ String sep (join (String sep "") (q :: ps))).
    rewrite (split_append_sep _ _ _ Hp), (IH q Hrest). reflexivity.
Qed.

Lemma trimStart_append_keep (a : string) (c : ascii) (r : string) :
  is_whitespace c = false ->
  trimStart (a ++ String c r) = trimStart a ++ String c r.
Proof.
  intros Hc. induction a as [|x a IH]; simpl.
  - now rewrite Hc.
  - destruct (is_whitespace x); [exact IH | reflexivity].
Qed.

Lemma trimEnd_String_keep (c : ascii) (r : string) :
  is_whitespace c = false -> trimEnd (String c r) = String c (trimEnd r).
Proof.
  intros Hc. simpl. destruct (trimEnd r); [now rewrite Hc | reflexivity].
Qed.

Lemma trimEnd_append_keep (a : string) (c : ascii) (r : string) :
  is_whitespace c = false ->
  trimEnd (a ++ String c r) = a ++ String c (trimEnd r).
Proof.
  intros Hc. induction a as [|x a IH].
  - simpl append. now apply trimEnd_String_keep.
  - change (String x a ++ String c r) with (String x (a ++ String c r)).
    cbn [trimEnd]. rewrite IH. destruct a; reflexivity.
Qed.

Lemma trimEnd_idempotent (s : string) : trimEnd (trimEnd s) = trimEnd s.
Proof.
  induction s as [|c s IH]; [reflexivity|].
  cbn [trimEnd]. destruct (trimEnd s) as [|d t] eqn:E.
  - destruct (is_whitespace c) eqn:Hc; [reflexivity|].
    cbn. now rewrite Hc.
  - cbn [trimEnd]. cbn [trimEnd] in IH. rewrite IH. reflexivity.
Qed.

Lemma trimStart_idempotent (s : string) : trimStart (trimStart s) = trimStart s.
Proof.
  induction s as [|c s IH]; [reflexivity|].
  simpl. destruct (is_whitespace c) eqn:Hc; [exact IH|].
  simpl. now rewrite Hc.
Qed.

Lemma trimStart_trimEnd (s : string) : trimStart (trimEnd s) = trimEnd (trimStart s).
Proof.
  induction s as [|c s IH]; [reflexivity|].
  destruct (is_whitespace c) eqn:Hc.
  - cbn [trimStart]. rewrite Hc, <- IH.
    cbn [trimEnd]. destruct (trimEnd s) as [|d t].
    + now rewrite Hc.
    + cbn [trimStart]. now rewrite Hc.
  - cbn [trimStart]. rewrite Hc.
    rewrite (trimEnd_String_keep _ _ Hc). cbn [trimStart]. now rewrite Hc.
Qed.

Lemma trim_trimStart (s : string) : trim (trimStart s) = trim s.
Proof. unfold trim. now rewrite trimStart_idempotent. Qed.

Lemma trim_trimEnd (s : string) : trim (trimEnd s) = trim s.
Proof. unfold trim. now rewrite trimStart_trimEnd, trimEnd_idempotent. Qed.

Lemma contains_trimStart (c : ascii) (s : string) :
  contains c s = false -> contains c (trimStart s) = false.
Proof.
  induction s as [|x s IH]; simpl; intros H; [reflexivity|].
  destruct (is_whitespace x); [|exact H].
  apply orb_false_iff in H as [_ Hs]. now apply IH.
Qed.

End StringFacts.

(** ** Numbers *)

Section NumberFacts.

Lemma number_eqb_eq (x y : number) : number_eqb x y = true -> x = y.
Proof.
  destruct x as [s|s| |s m e], y as [s'|s'| |s' m' e']; simpl; try discriminate.
  - intros H. apply Bool.eqb_prop in H. now subst.
  - intros H. apply Bool.eqb_prop in H. now subst.
  - reflexivity.
  - intros H. apply andb_true_iff in H as [H He].
    apply andb_true_iff in H as [Hs Hm].
    apply Bool.eqb_prop in Hs. apply Pos.eqb_eq in Hm. apply Z.eqb_eq in He.
    now subst.
Qed.

Lemma isFinite_not_NaN (x : number) : isFinite x = true -> isNaN x = false.
Proof. destruct x; simpl; congruence. Qed.

End NumberFacts.

(** Integer literals below 2^53 in absolute value are held exactly: the
    number [num z] denotes [z].  Array positions are such integers. *)
Section IntegerLiterals.

Local Open Scope Z_scope.

Lemma Zdigits2_log2 (p : positive) : Zdigits2 (Zpos p) = Z.log2 (Zpos p) + 1.
Proof.
  assert (H : forall q, digits2_pos q = Pos.size q)
    by (induction q; simpl; congruence).
  destruct p; simpl; try reflexivity; rewrite Pos2Z.inj_succ, H; lia.
Qed.

Lemma Zdigits2_bound (p : positive) :
  Zpos p < 2 ^ 53 -> 1 <= Zdigits2 (Zpos p) <= 53.
Proof.
  intros Hp. rewrite Zdigits2_log2. pose proof (Z.log2_nonneg (Zpos p)).
  assert (Z.log2 (Zpos p) < 53) by (apply Z.log2_lt_pow2; lia). lia.
Qed.

Lemma div_eucl_1 (m : Z) : Z.div_eucl m 1 = (m, 0).
Proof.
  pose proof (Z.div_1_r m) as Hd. pose proof (Z.mod_1_r m) as Hm.
  unfold Z.div, Z.modulo in *. destruct (Z.div_eucl m 1). simpl in *. congruence.
Qed.

(** The mantissa of an integer of [d] bits is the integer shifted up to 53
    bits, the exponent is [d - 53]; nothing is rounded away. *)
Lemma decimal_value_integer (s : bool) (p : positive) :
  Zpos p < 2 ^ 53 ->
  decimal_value s (Zpos p) 0
  = S754_finite s (Z.to_pos (Zpos p * 2 ^ (53 - Zdigits2 (Zpos p))))
      (Zdigits2 (Zpos p) - 53).
Proof.
  intros Hp. pose proof (Zdigits2_bound p Hp) as Hd.
  unfold decimal_value.
  change (Zpos p =? 0) with false. cbn [Z.leb Z.compare]. cbv iota.
  change (10 ^ 0) with 1. rewrite Z.mul_1_r.
  unfold round_ratio, SFdiv_core_binary.
  set (d := Zdigits2 (Zpos p)) in *.
  change (Zdigits2 1) with 1. rewrite !Z.add_0_r.
  assert (He : IntDef.Z.min (fexp prec emax (d - 1)) (0 - 0) = d - 54).
  { unfold fexp, emin, prec, emax. lia. }
  rewrite He. replace (0 - 0 - (d - 54)) with (54 - d) by lia.
  destruct (54 - d) as [|k|k] eqn:Ek; try lia.
  rewrite div_eucl_1. change (new_location 1 0) with loc_Exact.
  rewrite <- Ek. clear k Ek He.
  assert (Hlog : Z.log2 (Zpos p) = d - 1) by (unfold d; rewrite Zdigits2_log2; lia).
  change IntDef.Z.shiftl with Z.shiftl.
  rewrite Z.shiftl_mul_pow2 by lia.
  replace (54 - d) with (Z.succ (53 - d)) by lia.
  rewrite Z.pow_succ_r by lia. rewrite (Z.mul_comm 2), Z.mul_assoc.
  assert (Hpos : 0 < Zpos p * 2 ^ (53 - d))
    by (apply Z.mul_pos_pos; [lia | apply Z.pow_pos_nonneg; lia]).
  destruct (Zpos p * 2 ^ (53 - d)) as [|m|m] eqn:Em; try lia.
  assert (Hm : Zdigits2 (Zpos m) = 53).
  { rewrite Zdigits2_log2, <- Em, Z.log2_mul_pow2 by lia. lia. }
  assert (Hm2 : Zdigits2 (Zpos m * 2) = 54).
  { change (Zpos m * 2) with (Zpos (m * 2)). rewrite Zdigits2_log2.
    change (Zpos (m * 2)) with (Zpos m * 2 ^ 1). rewrite Z.log2_mul_pow2 by lia.
    rewrite Zdigits2_log2 in Hm. lia. }
  unfold binary_round_aux, shr_fexp. rewrite Hm2.
  replace (fexp prec emax (54 + (d - 54)) - (d - 54)) with 1
    by (unfold fexp, emin, prec, emax; lia).
  change (Zpos m * 2) with (Zpos (m * 2)). rewrite Pos.mul_comm.
  change (2 * m)%positive with (m~0)%positive.
  cbn [shr shr_record_of_loc SpecFloat.iter_pos shr_1 orb shr_m loc_of_shr_record
       round_nearest_even].
  rewrite Hm.
  replace (fexp prec emax (53 + (d - 54 + 1)) - (d - 54 + 1)) with 0
    by (unfold fexp, emin, prec, emax; lia).
  cbn [shr shr_m].
  replace (d - 54 + 1) with (d - 53) by lia.
  destruct (Z.leb_spec (d - 53) (emax - prec)) as [_ | H];
    [reflexivity | unfold emax, prec in H; lia].
Qed.

Lemma integer_value_num (z : Z) :
  - 2 ^ 53 < z < 2 ^ 53 -> integer_value (num z) = Some z.
Proof.
  intros Hz. unfold num.
  assert (H : forall (s : bool) (p : positive),
             Zpos p < 2 ^ 53 ->
             integer_value (decimal_value s (Zpos p) 0) = Some (cond_Zopp s (Zpos p))).
  { intros s p Hp. rewrite decimal_value_integer by exact Hp.
    pose proof (Zdigits2_bound p Hp) as Hd.
    set (d := Zdigits2 (Zpos p)) in *.
    assert (Hpos : 0 < Zpos p * 2 ^ (53 - d))
      by (apply Z.mul_pos_pos; [lia | apply Z.pow_pos_nonneg; lia]).
    unfold integer_value. rewrite Z2Pos.id by exact Hpos.
    destruct (Z.leb_spec 0 (d - 53)) as [H0 | Hneg].
    - replace (d - 53) with 0 by lia. replace (53 - d) with 0 by lia.
      do 2 f_equal. lia.
    - replace (- (d - 53)) with (53 - d) by lia.
      rewrite Z.mod_mul by (apply Z.pow_nonzero; lia).
      rewrite Z.eqb_refl.
      rewrite Z.div_mul by (apply Z.pow_nonzero; lia). reflexivity. }
  destruct z as [|p|p]; [reflexivity | |].
  - apply (H false p). lia.
  - apply (H true p). lia.
Qed.

(** The number of an array position denotes that position. *)
Lemma num_denotes_position (i : nat) :
  Z.of_nat i < 2 ^ 53 -> integer_value (num (Z.of_nat i)) = Some (Z.of_nat i).
Proof. intros H. apply integer_value_num. lia. Qed.

(** An integer that is negative or not below [n] denotes no position of a
    list of length [n]. *)
Lemma num_denotes_no_position (z : Z) (n i : nat) :
  - 2 ^ 53 < z < 2 ^ 53 -> z < 0 \/ Z.of_nat n <= z -> (i < n)%nat ->
  integer_value (num z) <> Some (Z.of_nat i).
Proof.
  intros Hz Hout Hi. rewrite integer_value_num by exact Hz.
  intros E. injection E as E. lia.
Qed.

End IntegerLiterals.

(** ** CSV import *)

Section CsvImport.

Lemma loop_body_app (acc : list DataPoint.t) (raw : string) :
  loop_body acc raw = (acc ++ parseRow raw)%list.
Proof.
  unfold parseRow, loop_body.
  destruct (truthy (trim raw)); [|now rewrite app_nil_r].
  destruct (map trim (split comma (trim raw))) as [|name rest];
    [now rewrite app_nil_r|].
  destruct (negb (isNaN (Number (head rest)))); [reflexivity|].
  now rewrite app_nil_r.
Qed.

Lemma fold_loop_body (rows : list string) (acc : list DataPoint.t) :
  fold_left loop_body rows acc = (acc ++ flat_map parseRow rows)%list.
Proof.
  revert acc. induction rows as [|r rows IH]; intros acc; simpl.
  - now rewrite app_nil_r.
  - rewrite IH, loop_body_app. now rewrite <- app_assoc.
Qed.

(** The import is row by row: the Dataset is the rows' contributions, in
    the order of the lines after the first. *)
Lemma parseCsv_rows (content : string) :
  parseCsv content = flat_map parseRow (drop 1 (split LF content)).
Proof. unfold parseCsv. now rewrite fold_loop_body. Qed.

Lemma parseCsv_header (header rest : string) :
  newline_free header ->
  parseCsv (header ++ String LF rest) = flat_map parseRow (split LF rest).
Proof.
  intros H. rewrite parseCsv_rows, (split_append_sep LF header rest H).
  reflexivity.
Qed.

Lemma parseCsv_fileOf (header : string) (rows : list string) :
  newline_free header -> Forall newline_free rows ->
  parseCsv (fileOf header rows) = flat_map parseRow rows.
Proof.
  intros Hh Hr. rewrite parseCsv_rows. unfold fileOf, nl.
  rewrite split_join; [reflexivity|].
  constructor; assumption.
Qed.

Lemma parseRow_blank : parseRow "" = [].
Proof. reflexivity. Qed.

(** A line with a comma: the label is what precedes the first comma, the
    value text is what lies between it and the next comma (or the end). *)
Lemma parseRow_comma (a rest : string) :
  comma_free a ->
  parseRow (a ++ String comma rest)
  = keptRow (trim a) (trim (hd "" (split comma (trimEnd rest)))).
Proof.
  intros Ha. unfold parseRow, loop_body, keptRow.
  assert (Hline : trim (a ++ String comma rest)
                  = trimStart a ++ String comma (trimEnd rest)).
  { unfold trim. rewrite trimStart_append_keep by reflexivity.
    now rewrite trimEnd_append_keep by reflexivity. }
  rewrite Hline, truthy_append_String.
  rewrite split_append_sep by (now apply contains_trimStart).
  destruct (split comma (trimEnd rest)) as [|f fs] eqn:E.
  { now apply split_not_nil in E. }
  cbn [map head hd]. rewrite trim_trimStart.
  destruct (isNaN (Number (Some (trim f)))); reflexivity.
Qed.

Lemma parseRow_two_fields (a b : string) :
  comma_free a -> comma_free b ->
  parseRow (a ++ String comma b) = keptRow (trim a) (trim b).
Proof.
  intros Ha Hb. rewrite (parseRow_comma a b Ha).
  assert (Hf : contains comma (trimEnd b) = false).
  { clear Ha. induction b as [|c b IH]; [reflexivity|].
    simpl in Hb. apply orb_false_iff in Hb as [Hc Hb'].
    cbn [trimEnd]. destruct (trimEnd b) as [|d t].
    - destruct (is_whitespace c); simpl; [reflexivity | now rewrite Hc].
    - cbn [contains]. rewrite Hc. now apply IH. }
  rewrite (split_free comma _ Hf). cbn [hd]. now rewrite trim_trimEnd.
Qed.

Lemma parseRow_more_fields (a b rest : string) :
  comma_free a -> comma_free b ->
  parseRow (a ++ String comma (b ++ String comma rest)) = keptRow (trim a) (trim b).
Proof.
  intros Ha Hb. rewrite (parseRow_comma a _ Ha).
  rewrite trimEnd_append_keep by reflexivity.
  rewrite (split_append_sep comma b _ Hb). reflexivity.
Qed.

Lemma parseRow_no_NaN (raw : string) : no_NaN (parseRow raw).
Proof.
  unfold parseRow, loop_body, no_NaN.
  destruct (truthy (trim raw)); [|constructor].
  destruct (map trim (split comma (trim raw))) as [|name rest]; [constructor|].
  destruct (isNaN (Number (head rest))) eqn:E; simpl; [constructor|].
  constructor; [exact E | constructor].
Qed.

Lemma parseCsv_no_NaN (content : string) : no_NaN (parseCsv content).
Proof.
  rewrite parseCsv_rows. unfold no_NaN.
  induction (drop 1 (split LF content)) as [|r rows IH]; simpl; [constructor|].
  apply Forall_app. split; [apply parseRow_no_NaN | exact IH].
Qed.

End CsvImport.

(** ** Claims on CSV import *)

Section CsvClaims.

(** C1, as stated, fails: the line [a,1,2] has two commas, yet the text
    after the first comma is not taken as one field; the line is split at
    every comma, its second field [1] is the value, and the row is kept. *)
Lemma importCsv_extra_commas_kept :
  count_char comma "a,1,2" = 2
  /\ data (handleFileUpload (Some (fileOf "name,value" ["a,1,2"])) initialState)
     = [DataPoint.mk "a" (num 1)]
  /\ data (handleFileUpload (Some (fileOf "name,value" ["a,1,2"])) initialState)
     <> [].
Proof.
  split; [reflexivity|].
  split; [vm_compute; reflexivity | vm_compute; discriminate].
Qed.

(** C1 (amended): a line with more than one comma is split at every comma;
    the first field, trimmed, is the label, the second field (the text
    between the first and the second comma), trimmed, is the value text, and
    what follows the second comma is ignored.  The row is kept exactly when
    the second field does not coerce to NaN, whatever the rows around it. *)
Theorem importCsv_extra_commas
    (header : string) (before after : list string) (a b rest : string) (st : State) :
  newline_free header -> Forall newline_free before -> Forall newline_free after ->
  newline_free (a ++ "," ++ b ++ "," ++ rest) ->
  comma_free a -> comma_free b ->
  data (handleFileUpload
          (Some (fileOf header (before ++ [(a ++ "," ++ b ++ "," ++ rest)%string] ++ after)%list))
          st)
  = (parseCsv (fileOf header before)
     ++ keptRow (trim a) (trim b)
     ++ parseCsv (fileOf header after))%list.
Proof.
  intros Hh Hb Ha Hl Hca Hcb. cbn [handleFileUpload onload setData data].
  rewrite !parseCsv_fileOf; try assumption.
  - rewrite !flat_map_app. cbn [flat_map]. rewrite app_nil_r.
    change (a ++ "," ++ b ++ "," ++ rest)
      with (a ++ String comma (b ++ String comma rest)).
    now rewrite parseRow_more_fields.
  - apply Forall_app. split; [assumption|].
    apply Forall_app. split; [|assumption].
    constructor; [assumption | constructor].
Qed.

Lemma importCsv_extra_commas_witness :
  data (handleFileUpload
          (Some (fileOf "name,value" (["Jan,1200"] ++ [("a" ++ "," ++ "1" ++ "," ++ "2")%string] ++ ["Mar,x,5"])%list))
          initialState)
  = (parseCsv (fileOf "name,value" ["Jan,1200"])
     ++ keptRow (trim "a") (trim "1")
     ++ parseCsv (fileOf "name,value" ["Mar,x,5"]))%list.
Proof.
  apply (importCsv_extra_commas "name,value" ["Jan,1200"] ["Mar,x,5"] "a" "1" "2"
           initialState);
    repeat constructor.
Defined.

(** C2, as stated, fails: the row [,300] is not dropped. *)
Lemma importCsv_example_not_two_rows :
  fileOf "name,value" exampleRows
  = "name,value" ++ nl ++ "Jan,1200" ++ nl ++ "Feb,abc" ++ nl ++ ",300" ++ nl ++ "Mar,1600"
  /\ data (handleFileUpload (Some (fileOf "name,value" exampleRows)) initialState)
     <> [DataPoint.mk "Jan" (num 1200); DataPoint.mk "Mar" (num 1600)].
Proof. split; [reflexivity | vm_compute; discriminate]. Qed.

(** C2 (amended): the five-line input yields three elements, Jan, the
    element with the empty label and Mar: only the row that is not numeric
    is dropped.  The first line is never part of the result, whatever it
    holds: the Dataset is made of the lines after it alone, and a file of
    one line gives the empty Dataset. *)
Theorem importCsv_example (header rest : string) (st : State) :
  newline_free header ->
  data (handleFileUpload (Some (fileOf header exampleRows)) st)
  = [DataPoint.mk "Jan" (num 1200); DataPoint.mk "" (num 300);
     DataPoint.mk "Mar" (num 1600)]
  /\ data (handleFileUpload (Some (header ++ nl ++ rest)) st)
     = flat_map parseRow (split LF rest)
  /\ data (handleFileUpload (Some header) st) = [].
Proof.
  intros Hh. cbn [handleFileUpload onload setData data]. repeat split.
  - rewrite parseCsv_fileOf; [vm_compute; reflexivity | assumption |].
    repeat constructor.
  - now apply parseCsv_header.
  - rewrite parseCsv_rows, (split_free LF header Hh). reflexivity.
Qed.

Lemma importCsv_example_witness :
  data (handleFileUpload (Some (fileOf "label;amount" exampleRows)) initialState)
  = [DataPoint.mk "Jan" (num 1200); DataPoint.mk "" (num 300);
     DataPoint.mk "Mar" (num 1600)]
  /\ data (handleFileUpload (Some ("label;amount" ++ nl ++ "x,1")) initialState)
     = flat_map parseRow (split LF "x,1")
  /\ data (handleFileUpload (Some "label;amount") initialState) = [].
Proof.
  apply (importCsv_example "label;amount" "x,1" initialState). reflexivity.
Defined.

(** C9: a row whose label is empty and whose value is a number is kept:
    [,300] gives the element with label [""] and value 300.  In general a
    row of two fields is kept exactly when its value text does not coerce
    to NaN; the label takes no part in the decision. *)
Theorem importCsv_keeps_empty_label (header : string) (a b : string) (st : State) :
  newline_free header ->
  comma_free a -> comma_free b ->
  data (handleFileUpload (Some (fileOf header [",300"])) st)
  = [DataPoint.mk "" (num 300)]
  /\ parseRow (a ++ "," ++ b) = keptRow (trim a) (trim b)
  /\ (isNaN (Number (Some (trim b))) = false ->
      parseRow ("" ++ "," ++ b) = [DataPoint.mk "" (Number (Some (trim b)))]).
Proof.
  intros Hh Ha Hb. cbn [handleFileUpload onload setData data]. repeat split.
  - rewrite parseCsv_fileOf; [vm_compute; reflexivity | assumption |].
    repeat constructor.
  - now apply parseRow_two_fields.
  - intros Hv.
    change ("" ++ "," ++ b) with ("" ++ String comma b).
    rewrite parseRow_two_fields by (reflexivity || assumption).
    unfold keptRow. now rewrite Hv.
Qed.

Lemma importCsv_keeps_empty_label_witness :
  data (handleFileUpload (Some (fileOf "name,value" [",300"])) initialState)
  = [DataPoint.mk "" (num 300)]
  /\ parseRow ("Jan" ++ "," ++ " 12 ") = keptRow (trim "Jan") (trim " 12 ")
  /\ parseRow ("" ++ "," ++ " 12 ") = [DataPoint.mk "" (Number (Some (trim " 12 ")))].
Proof.
  destruct (importCsv_keeps_empty_label "name,value" "Jan" " 12 " initialState)
    as (Hrow & Htwo & Hempty); try reflexivity.
  split; [exact Hrow|]. split; [exact Htwo|].
  apply Hempty. reflexivity.
Defined.

End CsvClaims.

(** ** The value invariant *)

Section ValueInvariant.

Lemma templates_all_finite (t : Template.t) :
  In t templates -> all_finite (Template.example t).
Proof.
  intros [<- | [<- | [<- | []]]]; repeat constructor.
Qed.

(** C3, as stated, fails.  The import guards against NaN only: the row
    [x,Infinity] brings an infinite value into the Dataset.  Manual entry
    checks nothing but that the fields are not empty: the value text [abc]
    brings NaN into it. *)
Lemma finite_invariant_broken :
  all_finite (data initialState)
  /\ data (handleFileUpload (Some (fileOf "name,value" ["x,Infinity"])) initialState)
     = [DataPoint.mk "x" (S754_infinity false)]
  /\ ~ all_finite
         (data (handleFileUpload (Some (fileOf "name,value" ["x,Infinity"])) initialState))
  /\ data (addDataPoint (setNewValue "abc" (setNewName "x" initialState)))
     = [DataPoint.mk "x" NaN]
  /\ ~ all_finite (data (addDataPoint (setNewValue "abc" (setNewName "x" initialState)))).
Proof.
  split; [constructor|].
  split; [vm_compute; reflexivity|].
  split.
  { intros H. vm_compute in H. inversion H as [|? ? Hx _]. discriminate Hx. }
  split; [vm_compute; reflexivity|].
  intros H. vm_compute in H. inversion H as [|? ? Hx _]. discriminate Hx.
Qed.

(** C3 (amended): no value that the import stores is NaN, for every text
    of the file (a stored value may be infinite); a built-in template
    loads finite values only; manual entry stores [Number(rawValue)] as it
    is, so that it keeps the values finite when that number is finite. *)
Theorem ingestion_value_invariant (st : State) (file : string) (t : Template.t) :
  In t templates ->
  no_NaN (data (handleFileUpload (Some file) st))
  /\ all_finite (data (loadTemplate t st))
  /\ (all_finite (data st) ->
      isFinite (Number (Some (newValue st))) = true ->
      all_finite (data (addDataPoint st))).
Proof.
  intros Ht. repeat split.
  - cbn [handleFileUpload onload setData data]. apply parseCsv_no_NaN.
  - cbn [loadTemplate setData data]. now apply templates_all_finite.
  - intros Hd Hv. unfold addDataPoint.
    destruct (truthy (newName st) && truthy (newValue st))%bool; [|exact Hd].
    cbn [setNewValue setNewName setData data]. unfold all_finite.
    apply Forall_app. split; [exact Hd|].
    constructor; [exact Hv | constructor].
Qed.

Lemma ingestion_value_invariant_witness :
  no_NaN (data (handleFileUpload (Some (fileOf "name,value" ["x,Infinity"; "y,zz"]))
                  (setNewValue "12.5" (setNewName "May" initialState))))
  /\ all_finite (data (loadTemplate weeklyTraffic
                         (setNewValue "12.5" (setNewName "May" initialState))))
  /\ all_finite (data (addDataPoint (setNewValue "12.5" (setNewName "May" initialState)))).
Proof.
  destruct (ingestion_value_invariant
              (setNewValue "12.5" (setNewName "May" initialState))
              (fileOf "name,value" ["x,Infinity"; "y,zz"]) weeklyTraffic)
    as (Himport & Hload & Hadd).
  - simpl. tauto.
  - split; [exact Himport|]. split; [exact Hload|].
    apply Hadd; [constructor | reflexivity].
Defined.

End ValueInvariant.

(** ** Template export *)

Section TemplateExport.

Lemma lower_char_not_upper (c : ascii) : is_upper_ascii (lower_char c) = false.
Proof. destruct c as [[] [] [] [] [] [] [] []]; reflexivity. Qed.

Lemma toLowerCase_no_upper (s : string) :
  string_forallb (fun c => negb (is_upper_ascii c)) (toLowerCase s) = true.
Proof.
  induction s as [|c s IH]; [reflexivity|].
  simpl. now rewrite lower_char_not_upper, IH.
Qed.

Lemma replace_ws_from_hyphenated (in_run : bool) (s : string) :
  string_forallb (fun c => negb (is_upper_ascii c)) s = true ->
  string_forallb (fun c => (negb (is_whitespace c) && negb (is_upper_ascii c))%bool)
    (replace_ws_from in_run s) = true.
Proof.
  revert in_run. induction s as [|c s IH]; intros in_run H; [reflexivity|].
  simpl in H. apply andb_true_iff in H as [Hc Hs].
  cbn [replace_ws_from]. destruct (is_whitespace c) eqn:Hw.
  - destruct in_run; [now apply IH|].
    cbn [string_forallb]. rewrite (IH true Hs). reflexivity.
  - cbn [string_forallb]. now rewrite Hw, Hc, (IH false Hs).
Qed.

(** A name without white space is only lower-cased. *)
Lemma replace_ws_from_word (in_run : bool) (s : string) :
  string_forallb (fun c => negb (is_whitespace c)) s = true ->
  replace_ws_from in_run s = s.
Proof.
  revert in_run. induction s as [|c s IH]; intros in_run H; [reflexivity|].
  simpl in H. apply andb_true_iff in H as [Hc Hs].
  apply negb_true_iff in Hc. cbn [replace_ws_from].
  now rewrite Hc, (IH false Hs).
Qed.

Lemma replace_ws_from_skip (w v : string) :
  string_forallb is_whitespace w = true ->
  replace_ws_from true (w ++ v) = replace_ws_from true v.
Proof.
  induction w as [|c w IH]; intros H; [reflexivity|].
  simpl in H. apply andb_true_iff in H as [Hc Hw].
  simpl. now rewrite Hc, (IH Hw).
Qed.

(** A word, a run of white space, then the rest: the run becomes one
    hyphen, however long it is. *)
Lemma replace_ws_runs_gap (u w v : string) :
  string_forallb (fun c => negb (is_whitespace c)) u = true ->
  string_forallb is_whitespace w = true -> w <> "" ->
  string_forallb is_whitespace (substring 0 1 v) = false \/ v = "" ->
  replace_ws_runs (u ++ w ++ v) = u ++ "-" ++ replace_ws_runs v.
Proof.
  intros Hu Hw Hne Hv. unfold replace_ws_runs.
  induction u as [|c u IH].
  - destruct w as [|c w]; [congruence|].
    simpl in Hw. apply andb_true_iff in Hw as [Hc Hw].
    simpl. rewrite Hc, (replace_ws_from_skip w v Hw). f_equal.
    destruct Hv as [Hv | ->]; [|reflexivity].
    destruct v as [|d v]; [discriminate|].
    simpl in Hv. cbn [replace_ws_from].
    destruct (is_whitespace d); [|reflexivity].
    destruct v; discriminate.
  - simpl in Hu. apply andb_true_iff in Hu as [Hc Hu].
    apply negb_true_iff in Hc. simpl. rewrite Hc. f_equal. now apply IH.
Qed.

Lemma first_line_header (rest : string) :
  first_line ("name,value" ++ nl ++ rest) = "name,value".
Proof. reflexivity. Qed.

Lemma replace_ws_from_single_spaced (in_run : bool) (s : string) :
  single_spaced in_run s = true -> replace_ws_from in_run s = spec_hyphenate s.
Proof.
  revert in_run. induction s as [|c s IH]; intros in_run H; [reflexivity|].
  cbn [single_spaced] in H. cbn [replace_ws_from spec_hyphenate].
  destruct (is_whitespace c) eqn:Hw.
  - apply andb_true_iff in H as [H Hs]. apply andb_true_iff in H as [Hc Hrun].
    apply negb_true_iff in Hrun. subst in_run.
    rewrite Hc, (IH true Hs). reflexivity.
  - rewrite (IH false H).
    destruct (Ascii.eqb_spec c " ") as [-> | _]; [discriminate Hw | reflexivity].
Qed.

(** C4, as stated, fails: the first line of the file is [name,value], not
    [label,value]; and a name with two spaces in a row gets one hyphen for
    them, not one hyphen for each space. *)
Lemma template_header_is_name_value :
  (exists d,
     downloadTemplate (loadTemplate monthlySales initialState) = Some d
     /\ first_line (blob d) = "name,value"
     /\ first_line (blob d) <> "label,value")
  /\ (exists d,
        downloadTemplate (loadTemplate (Template.mk "Q1  Sales" "" "" []) initialState)
        = Some d
        /\ download d = "q1-sales-template.csv"
        /\ spec_fileName (Template.mk "Q1  Sales" "" "" []) = "q1--sales-template.csv"
        /\ download d <> spec_fileName (Template.mk "Q1  Sales" "" "" [])).
Proof.
  split; eexists.
  - split; [reflexivity|]. split; [reflexivity | discriminate].
  - split; [reflexivity|]. split; [reflexivity|].
    split; [reflexivity | discriminate].
Qed.

(** C4 (amended): for every selected template the file holds the fixed
    header [name,value] as its first line, then one line [name,value] for
    each row of the example, the lines joined by line feeds.  The file name
    is the name of the template, lower-cased, every run of white space
    replaced by one hyphen, followed by [-template.csv]; its stem holds no
    white space and no capital A-Z.  When the only white space of the name
    is single spaces, as in the built-in templates, that is the name
    lower-cased with each space replaced by a hyphen. *)
Theorem downloadTemplate_format (t : Template.t) (st : State) :
  selectedTemplate st = Some t ->
  exists d,
    downloadTemplate st = Some d
    /\ blob d = "name,value" ++ nl ++ join nl (map csvRow (Template.example t))
    /\ first_line (blob d) = "name,value"
    /\ download d = replace_ws_runs (toLowerCase (Template.name t)) ++ "-template.csv"
    /\ string_forallb
         (fun c => (negb (is_whitespace c) && negb (is_upper_ascii c))%bool)
         (replace_ws_runs (toLowerCase (Template.name t))) = true
    /\ (single_spaced false (toLowerCase (Template.name t)) = true ->
        download d = spec_fileName t)
    /\ (In t templates -> download d = spec_fileName t).
Proof.
  intros Hsel. unfold downloadTemplate. rewrite Hsel.
  eexists. split; [reflexivity|]. cbn [blob download].
  split; [now rewrite append_assoc|].
  split; [now rewrite append_assoc|].
  split; [reflexivity|].
  split; [apply replace_ws_from_hyphenated, toLowerCase_no_upper|].
  assert (Hs : single_spaced false (toLowerCase (Template.name t)) = true ->
               replace_ws_runs (toLowerCase (Template.name t)) ++ "-template.csv"
               = spec_fileName t).
  { intros Hw. unfold replace_ws_runs, spec_fileName.
    now rewrite replace_ws_from_single_spaced. }
  split; [exact Hs|].
  intros [<- | [<- | [<- | []]]]; apply Hs; reflexivity.
Qed.

Lemma downloadTemplate_format_witness :
  exists d,
    downloadTemplate (loadTemplate productCategories initialState) = Some d
    /\ blob d = "name,value" ++ nl ++ join nl (map csvRow (Template.example productCategories))
    /\ first_line (blob d) = "name,value"
    /\ download d = "product-categories-template.csv"
    /\ download d = spec_fileName productCategories.
Proof.
  destruct (downloadTemplate_format productCategories
              (loadTemplate productCategories initialState))
    as (d & Hd & Hblob & Hfirst & Hname & _ & Hspec & _); [reflexivity|].
  exists d. split; [exact Hd|]. split; [exact Hblob|]. split; [exact Hfirst|].
  split; [exact Hname|]. apply Hspec. reflexivity.
Defined.

(** C5: with the template Monthly Sales selected, the file holds exactly
    the header [name,value] and the four rows, with no line feed at the
    end, and is offered as [monthly-sales-template.csv]. *)
Theorem downloadTemplate_monthly_sales (t : Template.t) (st : State) :
  In t templates -> Template.name t = "Monthly Sales" ->
  downloadTemplate (loadTemplate t st)
  = Some (mkDownload
            ("name,value" ++ nl ++ "Jan,1200" ++ nl ++ "Feb,1900" ++ nl
             ++ "Mar,1600" ++ nl ++ "Apr,2100")
            "monthly-sales-template.csv").
Proof.
  intros [<- | [<- | [<- | []]]] Hname; try discriminate Hname.
  vm_compute. reflexivity.
Qed.

Lemma downloadTemplate_monthly_sales_witness :
  downloadTemplate (loadTemplate monthlySales initialState)
  = Some (mkDownload
            ("name,value" ++ nl ++ "Jan,1200" ++ nl ++ "Feb,1900" ++ nl
             ++ "Mar,1600" ++ nl ++ "Apr,2100")
            "monthly-sales-template.csv").
Proof.
  apply (downloadTemplate_monthly_sales monthlySales initialState).
  - simpl. tauto.
  - reflexivity.
Defined.

End TemplateExport.

(** ** Round trip of a template file *)

Section RoundTrip.

Lemma clean_point_spec (p : DataPoint.t) :
  clean_point p = true ->
  comma_free (DataPoint.name p) /\ newline_free (DataPoint.name p)
  /\ trim (DataPoint.name p) = DataPoint.name p
  /\ comma_free (toString (DataPoint.value p))
  /\ newline_free (toString (DataPoint.value p))
  /\ isNaN (DataPoint.value p) = false
  /\ Number (Some (trim (toString (DataPoint.value p)))) = DataPoint.value p.
Proof.
  unfold clean_point, comma_free, newline_free. intros H.
  repeat (apply andb_true_iff in H as [H ?]).
  repeat match goal with
         | E : negb _ = true |- _ => apply negb_true_iff in E
         end.
  repeat split; try assumption.
  - now apply String.eqb_eq.
  - now apply number_eqb_eq.
Qed.

Lemma csvRow_newline_free (p : DataPoint.t) :
  clean_point p = true -> newline_free (csvRow p).
Proof.
  intros H. apply clean_point_spec in H as (_ & Hn & _ & _ & Ht & _).
  unfold newline_free, csvRow in *.
  rewrite contains_append, Hn. simpl. exact Ht.
Qed.

(** A clean data point, written as a row and read back, is itself. *)
Lemma parseRow_csvRow (p : DataPoint.t) :
  clean_point p = true -> parseRow (csvRow p) = [p].
Proof.
  intros H. apply clean_point_spec in H as (Hc & _ & Htrim & Htc & _ & Hnan & Hval).
  unfold csvRow.
  change (DataPoint.name p ++ "," ++ toString (DataPoint.value p))
    with (DataPoint.name p ++ String comma (toString (DataPoint.value p))).
  rewrite parseRow_two_fields by assumption.
  unfold keptRow. rewrite Hval, Hnan, Htrim. now destruct p.
Qed.

(** Any example of clean data points is read back from its file. *)
Lemma template_file_round_trip (t : Template.t) :
  forallb clean_point (Template.example t) = true ->
  parseCsv ("name,value" ++ nl ++ join nl (map csvRow (Template.example t)))
  = Template.example t.
Proof.
  intros H. destruct (Template.example t) as [|p ps] eqn:E; [reflexivity|].
  change ("name,value" ++ nl ++ join nl (map csvRow (p :: ps)))
    with (fileOf "name,value" (map csvRow (p :: ps))).
  rewrite parseCsv_fileOf; [|reflexivity|].
  - clear E. induction (p :: ps) as [|q qs IH]; [reflexivity|].
    simpl in H. apply andb_true_iff in H as [Hq Hqs].
    cbn [map flat_map]. now rewrite (parseRow_csvRow q Hq), (IH Hqs).
  - clear E. induction (p :: ps) as [|q qs IH]; [constructor|].
    simpl in H. apply andb_true_iff in H as [Hq Hqs].
    constructor; [now apply csvRow_newline_free | now apply IH].
Qed.

Lemma templates_clean (t : Template.t) :
  In t templates -> forallb clean_point (Template.example t) = true.
Proof. intros [<- | [<- | [<- | []]]]; vm_compute; reflexivity. Qed.

(** C6: for each of the templates, the file that [downloadTemplate] makes
    of it, read back by the import, gives the example of the template: the
    same elements in the same order. *)
Theorem template_round_trip (t : Template.t) (st st' : State) :
  In t templates -> selectedTemplate st = Some t ->
  exists d,
    downloadTemplate st = Some d
    /\ data (handleFileUpload (Some (blob d)) st') = Template.example t.
Proof.
  intros Ht Hsel. unfold downloadTemplate. rewrite Hsel.
  eexists. split; [reflexivity|].
  cbn [blob handleFileUpload onload setData data].
  rewrite append_assoc.
  apply template_file_round_trip, templates_clean, Ht.
Qed.

Lemma template_round_trip_witness :
  exists d,
    downloadTemplate (loadTemplate weeklyTraffic initialState) = Some d
    /\ data (handleFileUpload (Some (blob d)) initialState)
       = Template.example weeklyTraffic.
Proof.
  apply (template_round_trip weeklyTraffic
           (loadTemplate weeklyTraffic initialState) initialState).
  - simpl. tauto.
  - reflexivity.
Defined.

End RoundTrip.

(** ** Manual entry *)

Section ManualEntry.

(** C7: with a label and a value text that are not empty, [addDataPoint]
    appends the one element [{label, Number(rawValue)}] at the end: the
    length grows by one and every earlier element stays in its place.  With
    an empty label or an empty value text nothing changes. *)
Theorem addDataPoint_appends (st : State) :
  (newName st <> "" -> newValue st <> "" ->
   data (addDataPoint st)
   = (data st ++ [DataPoint.mk (newName st) (Number (Some (newValue st)))])%list
   /\ length (data (addDataPoint st)) = S (length (data st))
   /\ (forall i, i < length (data st) -> data (addDataPoint st) !! i = data st !! i)
   /\ data (addDataPoint st) !! length (data st)
      = Some (DataPoint.mk (newName st) (Number (Some (newValue st)))))
  /\ (newName st = "" \/ newValue st = "" -> addDataPoint st = st).
Proof.
  split.
  - intros Hn Hv. unfold addDataPoint.
    destruct (newName st) as [|c n] eqn:En; [congruence|].
    destruct (newValue st) as [|c' v] eqn:Ev; [congruence|].
    cbn [truthy andb setNewValue setNewName setData data].
    split; [reflexivity|].
    split; [rewrite length_app; simpl; lia|].
    split.
    + intros i Hi. now apply lookup_app_l.
    + rewrite lookup_app_r by lia. now rewrite Nat.sub_diag.
  - intros [H | H]; unfold addDataPoint; rewrite H; [reflexivity|].
    now rewrite andb_false_r.
Qed.

Lemma addDataPoint_appends_witness :
  data (addDataPoint (setNewValue "2400" (setNewName "May" (loadTemplate monthlySales initialState))))
  = (Template.example monthlySales ++ [DataPoint.mk "May" (num 2400)])%list
  /\ addDataPoint (setNewName "May" initialState) = setNewName "May" initialState.
Proof.
  pose proof (addDataPoint_appends
                (setNewValue "2400" (setNewName "May" (loadTemplate monthlySales initialState))))
    as [Happ _].
  pose proof (addDataPoint_appends (setNewName "May" initialState)) as [_ Hsame].
  split.
  - destruct Happ as [H _]; [discriminate | discriminate |].
    exact H.
  - apply Hsame. right. reflexivity.
Defined.

End ManualEntry.

(** ** Removal *)

Section Removal.

Context {A : Type}.

(** A filter that keeps every position it meets keeps the whole list. *)
Lemma filter_from_all (keep : A -> nat -> bool) (i : nat) (l : list A) :
  (forall x j, i <= j < i + length l -> keep x j = true) ->
  filter_from keep i l = l.
Proof.
  revert i. induction l as [|x l IH]; intros i H; [reflexivity|].
  cbn [filter_from]. rewrite H by (simpl; lia).
  f_equal. apply IH. intros y j Hj. apply H. simpl. lia.
Qed.

(** A filter that drops position [k] alone deletes the element there. *)
Lemma filter_from_delete (keep : A -> nat -> bool) (k i : nat) (l : list A) :
  (forall x j, keep x j = negb (Nat.eqb j k)) ->
  i <= k ->
  filter_from keep i l = delete (k - i) l.
Proof.
  intros Hkeep. revert i. induction l as [|x l IH]; intros i Hi; [reflexivity|].
  cbn [filter_from]. rewrite Hkeep.
  destruct (Nat.eqb_spec i k) as [-> | Hne]; cbn [negb].
  - rewrite Nat.sub_diag. cbn [delete list_delete].
    apply filter_from_all. intros y j Hj. rewrite Hkeep.
    destruct (Nat.eqb_spec j k); [lia | reflexivity].
  - rewrite IH by lia.
    replace (k - i) with (S (k - S i)) by lia. reflexivity.
Qed.

End Removal.

Section RemovalClaims.

Lemma strict_equals_index_denotes (index : number) (k j : nat) :
  integer_value index = Some (Z.of_nat k) ->
  strict_equals_index j index = Nat.eqb j k.
Proof.
  intros H. unfold strict_equals_index. rewrite H.
  destruct (Nat.eqb_spec j k) as [-> | Hne].
  - apply Z.eqb_refl.
  - apply Z.eqb_neq. lia.
Qed.

Lemma setData_same (st : State) : setData (data st) st = st.
Proof. now destruct st. Qed.

(** Whatever position the index denotes, the element there is deleted
    ([delete] past the end of a list deletes nothing). *)
Lemma removeDataPoint_delete (st : State) (index : number) (i : nat) :
  integer_value index = Some (Z.of_nat i) ->
  data (removeDataPoint index st) = delete i (data st).
Proof.
  intros Hidx. cbn [removeDataPoint setData data]. unfold filter_index.
  rewrite (filter_from_delete _ i 0); [now rewrite Nat.sub_0_r | | lia].
  intros _ j. now rewrite (strict_equals_index_denotes index i j Hidx).
Qed.

(** The call of the delete button of row [i]: [removeDataPoint(i)]. *)
Lemma removeDataPoint_position (st : State) (i : nat) :
  (Z.of_nat i < 2 ^ 53)%Z ->
  data (removeDataPoint (num (Z.of_nat i)) st) = delete i (data st).
Proof. intros Hi. now apply removeDataPoint_delete, num_denotes_position. Qed.

(** C8: when [index] denotes a position [i] of the Dataset, the result of
    [removeDataPoint] is the Dataset without the element at [i]: one
    element shorter, the elements before [i] in their places and the
    elements after [i] one place down, in their order. *)
Theorem removeDataPoint_in_range (st : State) (index : number) (i : nat) :
  integer_value index = Some (Z.of_nat i) ->
  i < length (data st) ->
  data (removeDataPoint index st) = delete i (data st)
  /\ data (removeDataPoint index st) = (take i (data st) ++ drop (S i) (data st))%list
  /\ length (data (removeDataPoint index st)) = length (data st) - 1
  /\ (forall j, j < i -> data (removeDataPoint index st) !! j = data st !! j)
  /\ (forall j, i <= j -> data (removeDataPoint index st) !! j = data st !! S j).
Proof.
  intros Hidx Hi.
  rewrite (removeDataPoint_delete st index i Hidx). split; [reflexivity|].
  split; [apply delete_take_drop|].
  split.
  { destruct (lookup_lt_is_Some_2 (data st) i Hi) as [x Hx].
    rewrite length_delete; [lia | eauto]. }
  split.
  - intros j Hj. now apply list_lookup_delete_lt.
  - intros j Hj. now apply list_lookup_delete_ge.
Qed.

Lemma removeDataPoint_in_range_witness :
  data (removeDataPoint (num 1) (loadTemplate monthlySales initialState))
  = [DataPoint.mk "Jan" (num 1200); DataPoint.mk "Mar" (num 1600);
     DataPoint.mk "Apr" (num 2100)].
Proof.
  destruct (removeDataPoint_in_range (loadTemplate monthlySales initialState) (num 1) 1)
    as [H _].
  - reflexivity.
  - simpl. lia.
  - rewrite H. reflexivity.
Defined.

(** C10: [removeDataPoint] is defined for every number; when [index]
    denotes no position of the Dataset (a negative or too large integer, a
    fraction, an infinity, NaN) the state comes back unchanged. *)
Theorem removeDataPoint_out_of_range (st : State) (index : number) :
  (forall i, i < length (data st) -> integer_value index <> Some (Z.of_nat i)) ->
  removeDataPoint index st = st.
Proof.
  intros H. unfold removeDataPoint, filter_index.
  rewrite filter_from_all; [apply setData_same|].
  intros _ j Hj. unfold strict_equals_index.
  destruct (integer_value index) as [z|] eqn:E; [|reflexivity].
  destruct (Z.eqb_spec z (Z.of_nat j)) as [-> | Hne]; [|reflexivity].
  exfalso. apply (H j); [lia | reflexivity].
Qed.

Lemma removeDataPoint_out_of_range_witness :
  removeDataPoint (num (-1)) (loadTemplate monthlySales initialState)
  = loadTemplate monthlySales initialState
  /\ removeDataPoint (num 4) (loadTemplate monthlySales initialState)
     = loadTemplate monthlySales initialState
  /\ removeDataPoint NaN (loadTemplate monthlySales initialState)
     = loadTemplate monthlySales initialState.
Proof.
  split; [|split]; apply removeDataPoint_out_of_range; intros i Hi E;
    cbn [loadTemplate setData data monthlySales Template.example length] in Hi.
  - vm_compute in E. destruct i; discriminate E.
  - vm_compute in E. do 4 (destruct i as [|i]; [discriminate E|]). lia.
  - discriminate E.
Defined.

End RemovalClaims.

(** ** More on strings *)

Section MoreStringFacts.

Lemma whitespace_not_comma (w : string) :
  string_forallb is_whitespace w = true -> comma_free w.
Proof.
  unfold comma_free. induction w as [|c w IH]; simpl; intros H; [reflexivity|].
  apply andb_true_iff in H as [Hc Hw]. rewrite (IH Hw), orb_false_r.
  destruct (Ascii.eqb_spec c comma) as [-> | _]; [discriminate Hc | reflexivity].
Qed.

Lemma trimStart_whitespace_prefix (w s : string) :
  string_forallb is_whitespace w = true -> trimStart (w ++ s) = trimStart s.
Proof.
  induction w as [|c w IH]; simpl; intros H; [reflexivity|].
  apply andb_true_iff in H as [Hc Hw]. now rewrite Hc, (IH Hw).
Qed.

Lemma trimEnd_whitespace (w : string) :
  string_forallb is_whitespace w = true -> trimEnd w = "".
Proof.
  induction w as [|c w IH]; simpl; intros H; [reflexivity|].
  apply andb_true_iff in H as [Hc Hw]. now rewrite (IH Hw), Hc.
Qed.

Lemma trimEnd_whitespace_suffix (s w : string) :
  string_forallb is_whitespace w = true -> trimEnd (s ++ w) = trimEnd s.
Proof.
  intros Hw. induction s as [|c s IH].
  - simpl. now apply trimEnd_whitespace.
  - change (String c s ++ w) with (String c (s ++ w)).
    cbn [trimEnd]. now rewrite IH.
Qed.

(** White space around a text does not change what [trim] gives. *)
Lemma trim_surrounded (w1 s w2 : string) :
  string_forallb is_whitespace w1 = true ->
  string_forallb is_whitespace w2 = true ->
  trim (w1 ++ s ++ w2) = trim s.
Proof.
  intros H1 H2. unfold trim.
  rewrite (trimStart_whitespace_prefix w1 _ H1).
  rewrite <- !trimStart_trimEnd.
  now rewrite (trimEnd_whitespace_suffix s w2 H2).
Qed.

Lemma trim_idempotent (s : string) : trim (trim s) = trim s.
Proof. unfold trim at 2. now rewrite trim_trimEnd, trim_trimStart. Qed.

Lemma contains_trimEnd (c : ascii) (s : string) :
  contains c s = false -> contains c (trimEnd s) = false.
Proof.
  induction s as [|x s IH]; simpl; intros H; [reflexivity|].
  apply orb_false_iff in H as [Hx Hs].
  destruct (trimEnd s) as [|d t].
  - destruct (is_whitespace x); simpl; [reflexivity | now rewrite Hx].
  - cbn [contains]. rewrite Hx. now apply IH.
Qed.

Lemma contains_trim (c : ascii) (s : string) :
  contains c s = false -> contains c (trim s) = false.
Proof. intros H. now apply contains_trimEnd, contains_trimStart. Qed.

(** No field of a split text holds the separator, and none holds a
    character that the text does not hold. *)
Lemma split_fields_free (sep c : ascii) (s : string) :
  (c = sep \/ contains c s = false) ->
  Forall (fun f => contains c f = false) (split sep s).
Proof.
  induction s as [|x s IH]; intros H.
  - constructor; [reflexivity | constructor].
  - assert (Hs : c = sep \/ contains c s = false).
    { destruct H as [H | H]; [now left | right].
      simpl in H. now apply orb_false_iff in H as [_ H]. }
    specialize (IH Hs). cbn [split].
    destruct (Ascii.eqb_spec x sep) as [-> | Hne].
    + constructor; [reflexivity | exact IH].
    + assert (Hx : Ascii.eqb x c = false).
      { destruct H as [-> | H]; [now apply Ascii.eqb_neq|].
        simpl in H. now apply orb_false_iff in H as [H _]. }
      destruct (split sep s) as [|f fs].
      * constructor; [|constructor]. cbn [contains]. now rewrite Hx.
      * inversion IH as [|? ? Hf Hfs]; subst.
        constructor; [|exact Hfs]. cbn [contains]. now rewrite Hf, Hx.
Qed.

Lemma split_length (sep : ascii) (s : string) :
  length (split sep s) = S (count_char sep s).
Proof.
  induction s as [|x s IH]; [reflexivity|].
  cbn [split count_char]. destruct (Ascii.eqb x sep).
  - simpl. now rewrite IH.
  - destruct (split sep s) as [|f fs]; simpl in *; lia.
Qed.

Lemma split_append_sep_end (sep : ascii) (s : string) :
  split sep (s ++ String sep "") = (split sep s ++ [""])%list.
Proof.
  induction s as [|x s IH]; simpl.
  - now rewrite Ascii.eqb_refl.
  - destruct (Ascii.eqb x sep); [now rewrite IH|].
    rewrite IH. destruct (split sep s) eqn:E; [|reflexivity].
    now apply split_not_nil in E.
Qed.

End MoreStringFacts.

(** ** More on the import *)

Section MoreCsvImport.

(** A line counts through its trimmed text only. *)
Lemma parseRow_trim_eq (r1 r2 : string) :
  trim r1 = trim r2 -> parseRow r1 = parseRow r2.
Proof. intros H. unfold parseRow, loop_body. now rewrite H. Qed.

Lemma parseRow_length (raw : string) : length (parseRow raw) <= 1.
Proof.
  unfold parseRow, loop_body.
  destruct (truthy (trim raw)); [|simpl; lia].
  destruct (map trim (split comma (trim raw))) as [|name rest]; [simpl; lia|].
  destruct (negb (isNaN (Number (head rest)))); simpl; lia.
Qed.

Lemma parseRow_comma_free (line : string) : comma_free line -> parseRow line = [].
Proof.
  intros H. unfold parseRow, loop_body.
  destruct (truthy (trim line)); [|reflexivity].
  rewrite (split_free comma (trim line)) by (now apply contains_trim).
  reflexivity.
Qed.

Lemma flat_map_parseRow_comma_free (rows : list string) :
  Forall comma_free rows -> flat_map parseRow rows = [].
Proof.
  induction 1 as [|r rows Hr _ IH]; [reflexivity|].
  cbn [flat_map]. now rewrite (parseRow_comma_free r Hr), IH.
Qed.

Lemma flat_map_parseRow_length (rows : list string) :
  length (flat_map parseRow rows) <= length rows.
Proof.
  induction rows as [|r rows IH]; [simpl; lia|].
  cbn [flat_map]. rewrite length_app. pose proof (parseRow_length r).
  simpl. lia.
Qed.

(** The label and the value of every element that a line contributes. *)
Lemma parseRow_element (raw : string) (p : DataPoint.t) :
  In p (parseRow raw) ->
  exists f fs,
    split comma (trim raw) = f :: fs
    /\ DataPoint.name p = trim f
    /\ DataPoint.value p = Number (head (map trim fs))
    /\ isNaN (DataPoint.value p) = false.
Proof.
  unfold parseRow, loop_body.
  destruct (truthy (trim raw)); [|intros []].
  destruct (split comma (trim raw)) as [|f fs]; [intros []|].
  cbn [map]. destruct (isNaN (Number (head (map trim fs)))) eqn:E; [intros []|].
  intros [<- | []]. exists f, fs. repeat split; assumption.
Qed.

Lemma split_join_CRLF (p : string) (ps : list string) :
  Forall newline_free (p :: ps) ->
  split LF (join (String CR nl) (p :: ps)) = keep_CR (p :: ps).
Proof.
  revert p. induction ps as [|q ps IH]; intros p H.
  - simpl. apply split_free. now inversion H.
  - inversion H as [|? ? Hp Hrest]; subst.
    change (join (String CR nl) (p :: q :: ps))
      with (p ++ String CR (String LF (join (String CR nl) (q :: ps)))).
    replace (p ++ String CR (String LF (join (String CR nl) (q :: ps))))
      with ((p ++ String CR "") ++ String LF (join (String CR nl) (q :: ps)))
      by (now rewrite append_assoc).
    rewrite split_append_sep.
    + rewrite (IH q Hrest). reflexivity.
    + unfold newline_free in Hp. rewrite contains_append, Hp. reflexivity.
Qed.

Lemma flat_map_parseRow_keep_CR (rows : list string) :
  flat_map parseRow (keep_CR rows) = flat_map parseRow rows.
Proof.
  induction rows as [|r rows IH]; [reflexivity|].
  destruct rows as [|r' rows]; [reflexivity|].
  change (keep_CR (r :: r' :: rows))
    with ((r ++ String CR "") :: keep_CR (r' :: rows)).
  cbn [flat_map] in *. rewrite IH. f_equal.
  apply parseRow_trim_eq.
  apply (trim_surrounded "" r (String CR "")); reflexivity.
Qed.

End MoreCsvImport.

(** ** Further properties of the import *)

Section CsvExtras.

(** X1: a line without a comma (a blank line too) adds nothing to the
    Dataset: the import of the file is that of the file without the line. *)
Theorem importCsv_line_without_comma
    (header : string) (before after : list string) (line : string) (st : State) :
  newline_free header -> Forall newline_free before -> Forall newline_free after ->
  newline_free line -> comma_free line ->
  data (handleFileUpload (Some (fileOf header (before ++ [line] ++ after)%list)) st)
  = data (handleFileUpload (Some (fileOf header (before ++ after)%list)) st).
Proof.
  intros Hh Hb Ha Hl Hc. cbn [handleFileUpload onload setData data].
  rewrite !parseCsv_fileOf; try assumption.
  - rewrite !flat_map_app. cbn [flat_map].
    now rewrite (parseRow_comma_free line Hc).
  - apply Forall_app. split; assumption.
  - apply Forall_app. split; [assumption|].
    apply Forall_app. split; [|assumption].
    constructor; [assumption | constructor].
Qed.

Lemma importCsv_line_without_comma_witness :
  data (handleFileUpload
          (Some (fileOf "name,value" (["Jan,1200"] ++ ["total 2800"] ++ ["Mar,1600"])%list))
          initialState)
  = data (handleFileUpload
            (Some (fileOf "name,value" (["Jan,1200"] ++ ["Mar,1600"])%list))
            initialState).
Proof.
  apply (importCsv_line_without_comma "name,value" ["Jan,1200"] ["Mar,1600"]
           "total 2800" initialState);
    repeat constructor.
Defined.

(** X2: a row whose value field is empty or white space is kept, with the
    value 0: the empty text coerces to 0, not to NaN. *)
Theorem importCsv_empty_value_is_zero (header a w rest : string) (st : State) :
  newline_free header -> newline_free (a ++ "," ++ w) ->
  comma_free a -> string_forallb is_whitespace w = true ->
  data (handleFileUpload (Some (fileOf header [a ++ "," ++ w])) st)
  = [DataPoint.mk (trim a) (S754_zero false)]
  /\ parseRow (a ++ "," ++ w ++ "," ++ rest) = [DataPoint.mk (trim a) (S754_zero false)].
Proof.
  intros Hh Hl Ha Hw.
  assert (Hk : keptRow (trim a) (trim w) = [DataPoint.mk (trim a) (S754_zero false)]).
  { replace (trim w) with "".
    - reflexivity.
    - symmetry. rewrite <- (append_empty_r w).
      apply (trim_surrounded w "" ""); [exact Hw | reflexivity]. }
  pose proof (whitespace_not_comma w Hw) as Hcw.
  split.
  - cbn [handleFileUpload onload setData data].
    rewrite parseCsv_fileOf; [|assumption | constructor; [assumption | constructor]].
    cbn [flat_map]. rewrite app_nil_r.
    change (a ++ "," ++ w) with (a ++ String comma w).
    now rewrite parseRow_two_fields.
  - change (a ++ "," ++ w ++ "," ++ rest)
      with (a ++ String comma (w ++ String comma rest)).
    now rewrite parseRow_more_fields.
Qed.

Lemma importCsv_empty_value_is_zero_witness :
  data (handleFileUpload (Some (fileOf "name,value" ["Jan" ++ "," ++ " "])) initialState)
  = [DataPoint.mk (trim "Jan") (S754_zero false)]
  /\ parseRow ("Jan" ++ "," ++ " " ++ "," ++ "7") = [DataPoint.mk (trim "Jan") (S754_zero false)].
Proof.
  apply (importCsv_empty_value_is_zero "name,value" "Jan" " " "7" initialState);
    reflexivity.
Defined.

(** X3: the import goes row by row: the Dataset of a file is the Dataset
    of its first rows followed by the Dataset of its other rows, so a row
    that is dropped takes no other row with it. *)
Theorem importCsv_rows_append (header : string) (rows1 rows2 : list string) (st : State) :
  newline_free header -> Forall newline_free rows1 -> Forall newline_free rows2 ->
  data (handleFileUpload (Some (fileOf header (rows1 ++ rows2)%list)) st)
  = (data (handleFileUpload (Some (fileOf header rows1)) st)
     ++ data (handleFileUpload (Some (fileOf header rows2)) st))%list.
Proof.
  intros Hh H1 H2. cbn [handleFileUpload onload setData data].
  rewrite !parseCsv_fileOf; try assumption.
  - apply flat_map_app.
  - apply Forall_app. split; assumption.
Qed.

Lemma importCsv_rows_append_witness :
  data (handleFileUpload
          (Some (fileOf "name,value" (["Jan,1200"; "Feb,abc"] ++ [",300"; "Mar,1600"])%list))
          initialState)
  = (data (handleFileUpload (Some (fileOf "name,value" ["Jan,1200"; "Feb,abc"])) initialState)
     ++ data (handleFileUpload (Some (fileOf "name,value" [",300"; "Mar,1600"])) initialState))%list.
Proof.
  apply (importCsv_rows_append "name,value" ["Jan,1200"; "Feb,abc"] [",300"; "Mar,1600"]
           initialState);
    repeat constructor.
Defined.

(** X4: a line gives one element at most and the first line gives none:
    the Dataset has no more elements than the text has line feeds. *)
Theorem importCsv_size_bound (content : string) (st : State) :
  length (data (handleFileUpload (Some content) st)) <= count_char LF content.
Proof.
  cbn [handleFileUpload onload setData data]. rewrite parseCsv_rows.
  pose proof (flat_map_parseRow_length (drop 1 (split LF content))) as H.
  rewrite length_drop, split_length in H. lia.
Qed.

(** X5: the line ends CR LF read as the line ends LF do: the CR that stays
    at the end of a line is trimmed away. *)
Theorem importCsv_CRLF (header : string) (rows : list string) (st : State) :
  newline_free header -> Forall newline_free rows ->
  data (handleFileUpload (Some (fileOfCRLF header rows)) st)
  = data (handleFileUpload (Some (fileOf header rows)) st).
Proof.
  intros Hh Hr. cbn [handleFileUpload onload setData data].
  rewrite (parseCsv_fileOf header rows Hh Hr).
  rewrite parseCsv_rows. unfold fileOfCRLF.
  rewrite split_join_CRLF by (constructor; assumption).
  destruct rows as [|r rows]; [reflexivity|].
  change (drop 1 (keep_CR (header :: r :: rows))) with (keep_CR (r :: rows)).
  apply flat_map_parseRow_keep_CR.
Qed.

Lemma importCsv_CRLF_witness :
  data (handleFileUpload (Some (fileOfCRLF "name,value" ["Jan,1200"; "Feb,1900"])) initialState)
  = data (handleFileUpload (Some (fileOf "name,value" ["Jan,1200"; "Feb,1900"])) initialState).
Proof.
  apply (importCsv_CRLF "name,value" ["Jan,1200"; "Feb,1900"] initialState);
    repeat constructor.
Defined.

(** X6: white space around a line, before the label or after the last
    field, changes nothing. *)
Theorem importCsv_line_whitespace
    (header : string) (rows : list string) (w1 w2 : string) (st : State) :
  newline_free header -> Forall newline_free rows ->
  newline_free w1 -> newline_free w2 ->
  string_forallb is_whitespace w1 = true ->
  string_forallb is_whitespace w2 = true ->
  data (handleFileUpload
          (Some (fileOf header (map (fun r => w1 ++ r ++ w2) rows))) st)
  = data (handleFileUpload (Some (fileOf header rows)) st).
Proof.
  intros Hh Hr Hn1 Hn2 H1 H2. cbn [handleFileUpload onload setData data].
  rewrite !parseCsv_fileOf; try assumption.
  - induction rows as [|r rows IH]; [reflexivity|].
    inversion Hr; subst. cbn [map flat_map]. rewrite IH by assumption.
    f_equal. apply parseRow_trim_eq. now apply trim_surrounded.
  - clear Hh. induction Hr as [|r rows Hrow _ IH]; [constructor|].
    cbn [map]. constructor; [|exact IH].
    unfold newline_free in *. rewrite !contains_append, Hn1, Hrow, Hn2.
    reflexivity.
Qed.

Lemma importCsv_line_whitespace_witness :
  data (handleFileUpload
          (Some (fileOf "name,value"
                   (map (fun r => "  " ++ r ++ " ") ["Jan,1200"; "Feb,1900"])))
          initialState)
  = data (handleFileUpload (Some (fileOf "name,value" ["Jan,1200"; "Feb,1900"])) initialState).
Proof.
  apply (importCsv_line_whitespace "name,value" ["Jan,1200"; "Feb,1900"] "  " " "
           initialState);
    repeat constructor.
Defined.

(** X7: a line feed at the end of the file adds no row. *)
Theorem importCsv_trailing_newline (content : string) (st : State) :
  data (handleFileUpload (Some (content ++ nl)) st)
  = data (handleFileUpload (Some content) st).
Proof.
  cbn [handleFileUpload onload setData data]. rewrite !parseCsv_rows.
  unfold nl. rewrite split_append_sep_end.
  destruct (split LF content) as [|l ls] eqn:E; [now apply split_not_nil in E|].
  change (drop 1 ((l :: ls) ++ [""])%list) with (ls ++ [""])%list.
  change (drop 1 (l :: ls)) with ls.
  rewrite flat_map_app. cbn [flat_map].
  rewrite parseRow_blank. now rewrite !app_nil_r.
Qed.

(** X8: every label that the import stores is trimmed and holds neither a
    comma nor a line feed, and every value it stores is not NaN. *)
Theorem importCsv_labels (content : string) (st : State) (p : DataPoint.t) :
  In p (data (handleFileUpload (Some content) st)) ->
  trim (DataPoint.name p) = DataPoint.name p
  /\ comma_free (DataPoint.name p)
  /\ newline_free (DataPoint.name p)
  /\ isNaN (DataPoint.value p) = false.
Proof.
  cbn [handleFileUpload onload setData data]. rewrite parseCsv_rows.
  intros Hp. apply in_flat_map in Hp as (raw & Hraw & Hp).
  assert (Hnl : newline_free raw).
  { pose proof (split_fields_free LF LF content (or_introl eq_refl)) as H.
    apply (proj1 (List.Forall_forall _ _) H).
    clear -Hraw. destruct (split LF content) as [|l ls]; [destruct Hraw|].
    change (drop 1 (l :: ls)) with ls in Hraw. now right. }
  apply parseRow_element in Hp as (f & fs & Hsplit & Hname & _ & Hnan).
  pose proof (split_fields_free comma comma (trim raw) (or_introl eq_refl)) as Hc.
  pose proof (split_fields_free comma LF (trim raw)
                (or_intror (contains_trim LF raw Hnl))) as Hl.
  rewrite Hsplit in Hc, Hl.
  inversion Hc as [|? ? Hcf _]; inversion Hl as [|? ? Hlf _]; subst.
  rewrite Hname. repeat split.
  - apply trim_idempotent.
  - now apply contains_trim.
  - now apply contains_trim.
  - exact Hnan.
Qed.

Lemma importCsv_labels_witness :
  trim "Jan" = "Jan" /\ comma_free "Jan" /\ newline_free "Jan"
  /\ isNaN (num 1200) = false.
Proof.
  apply (importCsv_labels (fileOf "name,value" ["  Jan , 1200 ,x"]) initialState
           (DataPoint.mk "Jan" (num 1200))).
  vm_compute. left. reflexivity.
Defined.

(** X9: a file none of whose rows holds a comma empties the Dataset,
    whatever it held, and with it the table, the export buttons and the
    chart are no more rendered. *)
Theorem importCsv_no_valid_rows (header : string) (rows : list string) (st : State) :
  newline_free header -> Forall newline_free rows -> Forall comma_free rows ->
  data (handleFileUpload (Some (fileOf header rows)) st) = []
  /\ chartVisible (handleFileUpload (Some (fileOf header rows)) st) = false.
Proof.
  intros Hh Hr Hc.
  assert (E : data (handleFileUpload (Some (fileOf header rows)) st) = []).
  { cbn [handleFileUpload onload setData data].
    rewrite parseCsv_fileOf by assumption.
    now apply flat_map_parseRow_comma_free. }
  split; [exact E|]. unfold chartVisible. now rewrite E.
Qed.

Lemma importCsv_no_valid_rows_witness :
  chartVisible (loadTemplate monthlySales initialState) = true
  /\ data (handleFileUpload (Some (fileOf "name,value" ["Jan;1200"; ""]))
             (loadTemplate monthlySales initialState)) = []
  /\ chartVisible (handleFileUpload (Some (fileOf "name,value" ["Jan;1200"; ""]))
                     (loadTemplate monthlySales initialState)) = false.
Proof.
  split; [reflexivity|].
  apply (importCsv_no_valid_rows "name,value" ["Jan;1200"; ""]
           (loadTemplate monthlySales initialState));
    repeat constructor.
Defined.

End CsvExtras.

(** ** Manual entry and removal, further *)

Section EntryRemovalExtras.

(** X10: a second click on the add button adds nothing: the first one
    clears both fields. *)
Theorem addDataPoint_idempotent (st : State) :
  addDataPoint (addDataPoint st) = addDataPoint st.
Proof.
  unfold addDataPoint.
  destruct (truthy (newName st) && truthy (newValue st))%bool eqn:E.
  - reflexivity.
  - now rewrite E.
Qed.

(** X11: removing the position that [addDataPoint] has just filled gives
    the Dataset back. *)
Theorem add_then_remove_last (st : State) :
  newName st <> "" -> newValue st <> "" ->
  (Z.of_nat (length (data st)) < 2 ^ 53)%Z ->
  data (removeDataPoint (num (Z.of_nat (length (data st)))) (addDataPoint st))
  = data st.
Proof.
  intros Hn Hv Hlen.
  rewrite removeDataPoint_position by exact Hlen.
  unfold addDataPoint.
  destruct (newName st) as [|c n] eqn:En; [congruence|].
  destruct (newValue st) as [|c' v] eqn:Ev; [congruence|].
  cbn [truthy andb setNewValue setNewName setData data].
  rewrite (delete_middle (data st) []). apply app_nil_r.
Qed.

Lemma add_then_remove_last_witness :
  data (removeDataPoint (num 4)
          (addDataPoint
             (setNewValue "2400" (setNewName "May" (loadTemplate monthlySales initialState)))))
  = Template.example monthlySales.
Proof.
  apply (add_then_remove_last
           (setNewValue "2400" (setNewName "May" (loadTemplate monthlySales initialState))));
    [discriminate | discriminate | reflexivity].
Defined.

Lemma removeDataPoint_keeps (st : State) (index : number) :
  (forall i, i < length (data st) -> integer_value index <> Some (Z.of_nat i)) ->
  data (removeDataPoint index st) = data st.
Proof.
  intros H. cbn [removeDataPoint setData data]. unfold filter_index.
  apply filter_from_all. intros _ j Hj. unfold strict_equals_index.
  destruct (integer_value index) as [z|] eqn:E; [|reflexivity].
  destruct (Z.eqb_spec z (Z.of_nat j)) as [-> | Hne]; [|reflexivity].
  exfalso. apply (H j); [lia | reflexivity].
Qed.

(** X12: whatever number the index is, [removeDataPoint] takes away one
    element at most: the Dataset stays as it is, or it loses the element
    at the position that the index denotes. *)
Theorem removeDataPoint_at_most_one (st : State) (index : number) :
  (data (removeDataPoint index st) = data st
   \/ exists i, i < length (data st)
                /\ integer_value index = Some (Z.of_nat i)
                /\ data (removeDataPoint index st) = delete i (data st))
  /\ length (data st) - 1 <= length (data (removeDataPoint index st))
     <= length (data st).
Proof.
  assert (H : data (removeDataPoint index st) = data st
              \/ exists i, i < length (data st)
                           /\ integer_value index = Some (Z.of_nat i)
                           /\ data (removeDataPoint index st) = delete i (data st)).
  { destruct (integer_value index) as [z|] eqn:E.
    - destruct (Z_lt_le_dec z 0) as [Hneg | Hpos].
      + left. apply removeDataPoint_keeps. intros i _. rewrite E.
        intros [= ->]. lia.
      + destruct (Nat.lt_ge_cases (Z.to_nat z) (length (data st))) as [Hin | Hout].
        * right. exists (Z.to_nat z). split; [exact Hin|].
          rewrite Z2Nat.id by exact Hpos. split; [reflexivity|].
          apply removeDataPoint_delete. rewrite Z2Nat.id by exact Hpos. exact E.
        * left. apply removeDataPoint_keeps. intros i Hi. rewrite E.
          intros [= ->]. lia.
    - left. apply removeDataPoint_keeps. intros i _. rewrite E. discriminate. }
  split; [exact H|].
  destruct H as [-> | (i & Hi & _ & ->)]; [lia|].
  destruct (lookup_lt_is_Some_2 (data st) i Hi) as [x Hx].
  rewrite length_delete by eauto. lia.
Qed.

Lemma Forall_filter_from {A : Type} (P : A -> Prop) (keep : A -> nat -> bool)
    (i : nat) (l : list A) :
  Forall P l -> Forall P (filter_from keep i l).
Proof.
  intros H. revert i. induction H as [|x l Hx _ IH]; intros i; [constructor|].
  cbn [filter_from]. destruct (keep x i); [constructor; [exact Hx|] |]; apply IH.
Qed.

(** X13: removal keeps what holds of every data point: finite values stay
    finite, values that are not NaN stay so. *)
Theorem removeDataPoint_preserves (P : DataPoint.t -> Prop) (st : State) (index : number) :
  Forall P (data st) -> Forall P (data (removeDataPoint index st)).
Proof.
  intros H. cbn [removeDataPoint setData data]. now apply Forall_filter_from.
Qed.

Lemma removeDataPoint_preserves_witness :
  all_finite (data (removeDataPoint (num 2) (loadTemplate weeklyTraffic initialState))).
Proof.
  apply (removeDataPoint_preserves
           (fun p => isFinite (DataPoint.value p) = true)
           (loadTemplate weeklyTraffic initialState) (num 2)).
  repeat constructor.
Defined.

End EntryRemovalExtras.

(** ** The template file and the template button *)

Section TemplateExtras.

(** X14: the button "Template" of a card hands out the file of the template
    that was selected before the click, not of the card's own: nothing at
    all when none was selected, and the card's own file on a second click. *)
Theorem templateButton_downloads_previous (t u : Template.t) (st : State) :
  (selectedTemplate st = None -> fst (templateButtonClick t st) = None)
  /\ (selectedTemplate st = Some u ->
      fst (templateButtonClick t st) = Some (templateFile u))
  /\ fst (templateButtonClick t (snd (templateButtonClick t st))) = Some (templateFile t)
  /\ selectedTemplate (snd (templateButtonClick t st)) = Some t
  /\ data (snd (templateButtonClick t st)) = data st.
Proof.
  unfold templateButtonClick, downloadTemplate, templateFile. cbn [fst snd].
  split; [now intros ->|].
  split; [intros ->; now rewrite append_assoc|].
  split; [|split; reflexivity].
  cbn [setSelectedTemplate selectedTemplate]. now rewrite append_assoc.
Qed.

Lemma templateButton_downloads_previous_witness :
  fst (templateButtonClick monthlySales initialState) = None
  /\ fst (templateButtonClick monthlySales (loadTemplate weeklyTraffic initialState))
     = Some (templateFile weeklyTraffic)
  /\ download (templateFile weeklyTraffic) = "weekly-traffic-template.csv".
Proof.
  split; [|split; [|reflexivity]].
  - apply (templateButton_downloads_previous monthlySales weeklyTraffic initialState).
    reflexivity.
  - apply (templateButton_downloads_previous monthlySales weeklyTraffic
             (loadTemplate weeklyTraffic initialState)).
    reflexivity.
Defined.

(** X15: the template file never shows the Dataset: with a template
    selected, adding, removing and importing leave the download what it
    was, the example of the template. *)
Theorem downloadTemplate_ignores_edits
    (t : Template.t) (st : State) (index : number) (file : option string) :
  selectedTemplate st = Some t ->
  downloadTemplate (addDataPoint st) = Some (templateFile t)
  /\ downloadTemplate (removeDataPoint index st) = Some (templateFile t)
  /\ downloadTemplate (handleFileUpload file st) = Some (templateFile t).
Proof.
  intros Hsel.
  assert (H : forall st', selectedTemplate st' = Some t ->
                          downloadTemplate st' = Some (templateFile t)).
  { intros st' E. unfold downloadTemplate, templateFile. rewrite E.
    now rewrite append_assoc. }
  repeat split; apply H.
  - unfold addDataPoint.
    destruct (truthy (newName st) && truthy (newValue st))%bool; exact Hsel.
  - exact Hsel.
  - destruct file; exact Hsel.
Qed.

Lemma downloadTemplate_ignores_edits_witness :
  downloadTemplate
    (handleFileUpload (Some (fileOf "name,value" ["x,1"]))
       (loadTemplate monthlySales initialState))
  = Some (templateFile monthlySales).
Proof.
  apply (downloadTemplate_ignores_edits monthlySales
           (loadTemplate monthlySales initialState) NaN
           (Some (fileOf "name,value" ["x,1"]))).
  reflexivity.
Defined.

(** X16: the round trip holds for every template of clean data points, not
    for the built-in ones only: labels without comma, line feed and outer
    white space, values whose text reads back as the same number. *)
Theorem template_round_trip_clean (t : Template.t) (st st' : State) :
  forallb clean_point (Template.example t) = true ->
  selectedTemplate st = Some t ->
  exists d,
    downloadTemplate st = Some d
    /\ data (handleFileUpload (Some (blob d)) st') = Template.example t.
Proof.
  intros Hclean Hsel. unfold downloadTemplate. rewrite Hsel.
  eexists. split; [reflexivity|].
  cbn [blob handleFileUpload onload setData data].
  rewrite append_assoc. now apply template_file_round_trip.
Qed.

Lemma template_round_trip_clean_witness :
  exists d,
    downloadTemplate
      (loadTemplate
         (Template.mk "Quarterly Margin" "" ""
            [ DataPoint.mk "North East" (Number (Some "12.5"));
              DataPoint.mk "Q2" (num (-3));
              DataPoint.mk "big" (Number (Some "1e21"));
              DataPoint.mk "" (Number (Some "0.001")) ])
         initialState) = Some d
    /\ data (handleFileUpload (Some (blob d)) initialState)
       = [ DataPoint.mk "North East" (Number (Some "12.5"));
           DataPoint.mk "Q2" (num (-3));
           DataPoint.mk "big" (Number (Some "1e21"));
           DataPoint.mk "" (Number (Some "0.001")) ].
Proof.
  apply (template_round_trip_clean
           (Template.mk "Quarterly Margin" "" ""
              [ DataPoint.mk "North East" (Number (Some "12.5"));
                DataPoint.mk "Q2" (num (-3));
                DataPoint.mk "big" (Number (Some "1e21"));
                DataPoint.mk "" (Number (Some "0.001")) ])
           (loadTemplate
              (Template.mk "Quarterly Margin" "" ""
                 [ DataPoint.mk "North East" (Number (Some "12.5"));
                   DataPoint.mk "Q2" (num (-3));
                   DataPoint.mk "big" (Number (Some "1e21"));
                   DataPoint.mk "" (Number (Some "0.001")) ])
              initialState)
           initialState).
  - vm_compute. reflexivity.
  - reflexivity.
Defined.

End TemplateExtras.

(** ** The colours of the pie *)

Section PieColours.

Lemma cellFill_position (d : list DataPoint.t) (i : nat) :
  i < length d -> cellFill d i = palette !! (i mod 3).
Proof.
  intros Hi. unfold cellFill, pieCells. rewrite list_lookup_imap.
  destruct (lookup_lt_is_Some_2 d i Hi) as [x ->]. reflexivity.
Qed.

Lemma mod3_cases (i : nat) :
  (i mod 3 = 0 /\ S i mod 3 = 1) \/ (i mod 3 = 1 /\ S i mod 3 = 2)
  \/ (i mod 3 = 2 /\ S i mod 3 = 0).
Proof.
  pose proof (Nat.mod_upper_bound i 3) as Hb.
  assert (E : S i mod 3 = (i mod 3 + 1) mod 3).
  { rewrite <- Nat.add_1_r. rewrite Nat.Div0.add_mod. reflexivity. }
  destruct (i mod 3) as [|[|[|k]]]; rewrite E; simpl; lia.
Qed.

(** X17: there is one cell for each data point; each cell has one of the
    three colours of the palette, never an undefined fill; two slices in a
    row never share a colour, and the colours come back every three
    slices. *)
Theorem pie_colours (d : list DataPoint.t) (i : nat) :
  i < length d ->
  length (pieCells d) = length d
  /\ exists c,
       cellFill d i = Some c /\ In c palette
       /\ (S i < length d -> cellFill d (S i) <> Some c)
       /\ (i + 3 < length d -> cellFill d (i + 3) = Some c).
Proof.
  intros Hi. split; [apply length_imap|].
  assert (H3 : (i + 3) mod 3 = i mod 3).
  { rewrite Nat.Div0.add_mod. change (3 mod 3) with 0.
    rewrite Nat.add_0_r. apply Nat.Div0.mod_mod. }
  rewrite (cellFill_position d i Hi).
  destruct (mod3_cases i) as [[E E'] | [[E E'] | [E E']]]; rewrite E;
    eexists; (split; [reflexivity|]); (split; [simpl; tauto|]); split.
  all: try (intros H; rewrite (cellFill_position d (S i) H), E'; discriminate).
  all: intros H; rewrite (cellFill_position d (i + 3) H), H3, E; reflexivity.
Qed.

Lemma pie_colours_witness :
  length (pieCells (Template.example weeklyTraffic)) = 5
  /\ cellFill (Template.example weeklyTraffic) 1 = Some "#10b981"
  /\ cellFill (Template.example weeklyTraffic) 4 = Some "#10b981".
Proof.
  destruct (pie_colours (Template.example weeklyTraffic) 1) as (Hlen & c & Hc & _ & _ & H3).
  - simpl. lia.
  - split; [exact Hlen|].
    assert (E : c = "#10b981") by (vm_compute in Hc; congruence).
    subst c. split; [exact Hc|]. apply H3. simpl. lia.
Defined.

(** X18: the first and the last slice, which meet in the ring, have the
    same colour exactly when the number of data points is 3 k + 1: so it is
    for the four rows of Monthly Sales. *)
Theorem pie_first_last (d : list DataPoint.t) :
  2 <= length d ->
  (cellFill d 0 = cellFill d (length d - 1) <-> length d mod 3 = 1).
Proof.
  intros Hn.
  rewrite (cellFill_position d 0) by lia.
  rewrite (cellFill_position d (length d - 1)) by lia.
  destruct (mod3_cases (length d - 1)) as [[E E'] | [[E E'] | [E E']]];
    replace (S (length d - 1)) with (length d) in E' by lia;
    rewrite E, E'; simpl; split; intros H; try reflexivity; discriminate.
Qed.

Lemma pie_first_last_witness :
  cellFill (Template.example monthlySales) 0
  = cellFill (Template.example monthlySales) (length (Template.example monthlySales) - 1).
Proof.
  apply (pie_first_last (Template.example monthlySales)).
  - simpl. lia.
  - reflexivity.
Defined.

End PieColours.
